(** * Sparkplug: rebuild-restart orchestration

    A shallow embedding of the sparkplug command-line tool (a fork of gin):
    the builder of [lib/builder.go], the configuration record of
    [lib/config.go] and the two entry-point files of package [main]
    (the watcher-based one and the older signal-goroutine one).

    External effects (the go toolchain, the child process, the filesystem
    watcher, the operating-system signal) are inputs of the model: every
    function that calls out takes the result of the call as an argument and
    appends what it did to an event log. *)

From Stdlib Require Import ZArith NArith Ascii String List Bool Lia.
From Stdlib Require Import DecimalString.
From stdpp Require Import base option list strings gmap.

Set Default Proof Using "Type".
Local Open Scope string_scope.

(** ** Go strings

    A Go [string] is a sequence of bytes; [String.string] (a list of 8-bit
    [ascii]) is exactly that. *)
Module GoStrings.

(** [s[n:]], the slice of [s] from byte offset [n]. *)
Fixpoint slice_from (n : nat) (s : string) : string :=
  match n, s with
  | O, _ => s
  | S _, EmptyString => EmptyString
  | S n', String _ s' => slice_from n' s'
  end.

(** [strings.HasSuffix]:
    [len(s) >= len(suffix) && s[len(s)-len(suffix):] == suffix]. *)
Definition HasSuffix (s suffix : string) : bool :=
  (String.length suffix <=? String.length s)%nat
  && String.eqb (slice_from (String.length s - String.length suffix) s) suffix.

(** [strconv.Itoa]: the decimal rendering of an integer, with a leading
    minus sign for negative numbers. *)
Definition Itoa (i : Z) : string := NilZero.string_of_int (Z.to_int i).

End GoStrings.
Import GoStrings.

(** ** Package sparkplug ([lib/]) *)
Module Sparkplug.

(** A non-nil Go [error].  [Errorf] is the value built by [fmt.Errorf]
    from its format string; [ExecError] is an error handed back by
    [os/exec] or another system call. *)
Inductive error : Type :=
| Errorf (format : string)
| ExecError (msg : string).

(** [lib/config.go]: run configuration metadata. *)
Record Config : Type := mkConfig {
  Port : Z;
  ProxyTo : string;
  Endpoint : string
}.

(** [lib/builder.go]: the unexported [builder] struct. *)
Record builder : Type := mkBuilder {
  dir : string;
  binary : string;
  errors : string;
  useGodep : bool
}.

(** [NewBuilder]; [goos] is [runtime.GOOS].  The [errors] field of the
    composite literal is left at its zero value. *)
Definition NewBuilder (goos : string) (dir bin : string) (useGodep : bool)
  : builder :=
  let bin := if (String.length bin =? 0)%nat then "bin" else bin in
  let bin :=
    if String.eqb goos "windows"
    then (if negb (HasSuffix bin ".exe") then bin ++ ".exe" else bin)
    else bin in
  {| dir := dir; binary := bin; errors := ""; useGodep := useGodep |}.

Definition Binary (b : builder) : string := binary b.
Definition Errors (b : builder) : string := errors b.

(** What [command.CombinedOutput()] hands back for one run of the
    toolchain: the captured output, the returned error, and
    [command.ProcessState.Success()], which [Build] reads only when the
    error is nil. *)
Record CmdResult : Type := mkCmdResult {
  output : string;
  err : option error;
  success : bool
}.

(** The command line [Build] runs (in directory [dir b]). *)
Definition build_command (b : builder) : list string :=
  if useGodep b
  then ["godep"; "go"; "build"; "-o"; binary b]
  else ["go"; "build"; "-o"; binary b].

(** The test [err != nil || !command.ProcessState.Success()]. *)
Definition command_failed (r : CmdResult) : bool :=
  match err r with
  | Some _ => true
  | None => negb (success r)
  end.

(** [Build], given the outcome [r] of running the command. *)
Definition Build (b : builder) (r : CmdResult) : builder * option error :=
  let b' :=
    {| dir := dir b; binary := binary b;
       errors := if command_failed r then output r else "";
       useGodep := useGodep b |} in
  if (0 <? String.length (errors b'))%nat
  then (b', Some (Errorf (errors b')))
  else (b', err r).

(** The [Runner] interface as package [main] uses it.  Its implementation
    ([lib/runner.go]) is not part of the sources at hand, so the
    orchestration code is written against any implementation. *)
Inductive writer : Type := Stdout.

Class Runner (R : Type) : Type := {
  NewRunner : string -> list string -> R;
  SetWriter : writer -> R -> R;
  Run : R -> R * option error;
  Kill : R -> R * option error;
  IsRunning : R -> bool
}.

(** The part of the runner's contract the orchestration relies on:
    after [Kill] returns no process is alive. *)
Class RunnerStops (R : Type) `{Runner R} : Prop := {
  Kill_stops : forall r : R, IsRunning (fst (Kill r)) = false
}.

(** Modelled from the spec: the Runner of [lib/runner.go], which is
    missing from the sources.  It supervises a single child process in one
    of four states.  [Start] fails if a process is already running,
    otherwise spawns the artifact and is [Running] once the spawn call has
    returned successfully.  [Stop] is idempotent: it succeeds with no
    side effect when already [Stopped]; otherwise it asks the child to
    terminate, force-terminates past a deadline, and ends [Stopped],
    reporting an error when graceful termination did not complete.
    [spawn_err] and [stop_err] are the operating system's answers. *)
Inductive ProcState : Type := Stopped | Starting | Running | Stopping.

Record SpecRunner : Type := mkSpecRunner {
  artifact : string;
  args : list string;
  outputSink : option writer;
  pstate : ProcState;
  spawn_err : option error;
  stop_err : option error
}.

Definition set_pstate (s : ProcState) (r : SpecRunner) : SpecRunner :=
  {| artifact := artifact r; args := args r; outputSink := outputSink r;
     pstate := s; spawn_err := spawn_err r; stop_err := stop_err r |}.

Definition spec_Start (r : SpecRunner) : SpecRunner * option error :=
  match pstate r with
  | Running => (r, Some (Errorf "process already running"))
  | _ =>
      match spawn_err r with
      | Some e => (set_pstate Stopped r, Some e)
      | None => (set_pstate Running r, None)
      end
  end.

Definition spec_Stop (r : SpecRunner) : SpecRunner * option error :=
  match pstate r with
  | Stopped => (r, None)
  | _ => (set_pstate Stopped r, stop_err r)
  end.

Definition spec_IsRunning (r : SpecRunner) : bool :=
  match pstate r with
  | Running => true
  | _ => false
  end.

#[export] Instance SpecRunner_Runner : Runner SpecRunner := {
  NewRunner bin a :=
    {| artifact := bin; args := a; outputSink := None; pstate := Stopped;
       spawn_err := None; stop_err := None |};
  SetWriter w r :=
    {| artifact := artifact r; args := args r; outputSink := Some w;
       pstate := pstate r; spawn_err := spawn_err r;
       stop_err := stop_err r |};
  Run := spec_Start;
  Kill := spec_Stop;
  IsRunning := spec_IsRunning
}.

End Sparkplug.
Import Sparkplug.

(** ** The fsnotify event type

    [fsnotify.Event] and the bits of [fsnotify.Op] ([1 << iota], a
    [uint32]), as package [main] reads them. *)
Module fsnotify.

Definition Create : N := 1.
Definition Write : N := 2.
Definition Remove : N := 4.
Definition Rename : N := 8.
Definition Chmod : N := 16.

Record Event : Type := mkEvent {
  Name : string;
  Op : N
}.

End fsnotify.

(** ** What the program does to the outside

    Every call that leaves the process is logged as one [event].  A
    [logger] call records its format string and arguments (the logger's
    prefix and the trailing newlines of the format are left out; a call
    without a format, such as [logger.Fatal(err)], is recorded with the
    format ["%v"]); [fmt.Println] records the line. *)
Inductive arg : Type :=
| AInt (z : Z)
| AStr (s : string)
| AErr (e : error).

Inductive event : Type :=
| EvSetenv (key value : string)
| EvLog (format : string) (args : list arg)
| EvPrintln (line : string)
| EvProxyRun (config : Config)
| EvBuildCall (command : list string) (dir : string)
| EvBuildReturn (result : option error)
| EvKill
| EvRun
| EvSleep (milliseconds : Z)
| EvWatch (path : string)
| EvSignalNotify
| EvSignal
| EvWatcherClose.

Definition is_BuildCall (e : event) : bool :=
  match e with EvBuildCall _ _ => true | _ => false end.
Definition is_BuildReturn (e : event) : bool :=
  match e with EvBuildReturn _ => true | _ => false end.
Definition is_Run (e : event) : bool :=
  match e with EvRun => true | _ => false end.
Definition is_Kill (e : event) : bool :=
  match e with EvKill => true | _ => false end.
Definition is_ProxyRun (e : event) : bool :=
  match e with EvProxyRun _ => true | _ => false end.
Definition is_Setenv (e : event) : bool :=
  match e with EvSetenv _ _ => true | _ => false end.

(** Position of the first event satisfying [p]. *)
Fixpoint index_of (p : event -> bool) (l : list event) : option nat :=
  match l with
  | [] => None
  | e :: l' => if p e then Some O else option_map S (index_of p l')
  end.

(** Number of events satisfying [p]. *)
Definition count (p : event -> bool) (l : list event) : nat :=
  length (List.filter p l).

(** The package-level variables of package [main] that the program reads
    and writes ([startTime] and [logger] are never assigned). *)
Record globals : Type := mkGlobals {
  immediate : bool;
  buildError : option error
}.

(** The process: its package-level variables, its environment variables and
    the log of what it has done so far (oldest event first). *)
Record process : Type := mkProcess {
  vars : globals;
  environ : gmap string string;
  out : list event
}.

(** A computation either goes on with a value or has ended the process
    ([os.Exit], [logger.Fatal]) with an exit status. *)
Inductive outcome (A : Type) : Type :=
| Ret (a : A) (p : process)
| Exit (status : Z) (p : process).
Arguments Ret {A} a p.
Arguments Exit {A} status p.

Definition M (A : Type) : Type := process -> outcome A.

Definition ret {A} (a : A) : M A := fun p => Ret a p.
Definition bind {A B} (m : M A) (k : A -> M B) : M B :=
  fun p => match m p with
           | Ret a p' => k a p'
           | Exit s p' => Exit s p'
           end.

Declare Scope go_scope.
Delimit Scope go_scope with go.
Notation "'let*' x ':=' m 'in' k" := (bind m (fun x => k))
  (at level 10, x pattern, m at level 100, k at level 200) : go_scope.
Notation "m '>>' k" := (bind m (fun _ => k))
  (at level 90, right associativity) : go_scope.
Local Open Scope go_scope.

Definition final {A} (o : outcome A) : process :=
  match o with Ret _ p => p | Exit _ p => p end.

Definition emit (e : event) : M unit :=
  fun p => Ret tt {| vars := vars p; environ := environ p;
                     out := out p ++ [e] |}.

Definition os_Exit {A} (status : Z) : M A := fun p => Exit status p.

Definition os_Setenv (key value : string) : M unit :=
  fun p => Ret tt {| vars := vars p;
                     environ := <[key := value]> (environ p);
                     out := out p ++ [EvSetenv key value] |}.

Definition logger_Print (format : string) (args : list arg) : M unit :=
  emit (EvLog format args).

(** [logger.Fatal], [logger.Fatalf]: print, then [os.Exit(1)]. *)
Definition logger_Fatal {A} (format : string) (args : list arg) : M A :=
  emit (EvLog format args) >> os_Exit 1.

Definition fmt_Println (line : string) : M unit := emit (EvPrintln line).

Definition get_vars : M globals := fun p => Ret (vars p) p.
Definition set_immediate (b : bool) : M unit :=
  fun p => Ret tt {| vars := {| immediate := b;
                                buildError := buildError (vars p) |};
                     environ := environ p; out := out p |}.
Definition set_buildError (e : option error) : M unit :=
  fun p => Ret tt {| vars := {| immediate := immediate (vars p);
                                buildError := e |};
                     environ := environ p; out := out p |}.

(** The flags of the command line, as [mainAction] reads them from the
    [cli.Context], and the trailing arguments [c.Args()]. *)
Record Flags : Type := mkFlags {
  flag_port : Z;
  flag_appPort : Z;
  flag_bin : string;
  flag_endpoint : string;
  flag_path : string;
  flag_lazy : bool;
  flag_godep : bool;
  cli_args : list string
}.

(** What arrives while the program is up: a filesystem notification on the
    watcher's [Events] channel, an error on its [Errors] channel, or a hit
    on the proxy's restart endpoint.  A trigger carries the toolchain's
    answer for the cycle it may start.  Triggers are handled one after the
    other, in the order of the list. *)
Inductive trigger : Type :=
| FileChange (ev : fsnotify.Event) (r : CmdResult)
| WatchError (e : error)
| HTTPEndpoint (r : CmdResult).

(** The toolchain's answer a trigger carries, if it carries one. *)
Definition trigger_result (t : trigger) : option CmdResult :=
  match t with
  | FileChange _ r => Some r
  | WatchError _ => None
  | HTTPEndpoint r => Some r
  end.

(** The answers of the operating system and of the libraries to the calls
    of one run of [mainAction]. *)
Record World : Type := mkWorld {
  goos : string;
  os_Getwd : string + error;
  proxy_Run : option error;
  first_build : CmdResult;
  filepath_Abs : string + error;
  fsnotify_NewWatcher : option error;
  watcher_Add : option error;
  lifetime : list trigger
}.

(** ** Package main, the watcher-based entry point *)
Module Main.
Section WithRunner.

Context {R : Type} `{Runner R}.
(** [filepath.Join] of Go's library. *)
Variable filepath_Join : string -> string -> string.

Definition builder_Build (b : builder) (r : CmdResult)
  : M (builder * option error) :=
  emit (EvBuildCall (build_command b) (dir b)) >>
  let res := Build b r in
  emit (EvBuildReturn (snd res)) >>
  ret res.

Definition runner_Run (r : R) : M (R * option error) :=
  emit EvRun >> ret (Run r).

Definition runner_Kill (r : R) : M (R * option error) :=
  emit EvKill >> ret (Kill r).

(** [build]: kicks off the build, and runs the binary after a successful
    one when [immediate] is set.  [b] and [r] are the objects behind the
    two interface values; the updated objects are returned. *)
Definition build (b : builder) (r : R) (res : CmdResult) : M (builder * R) :=
  let* (b, err) := builder_Build b res in
  let* r :=
    match err with
    | Some e =>
        set_buildError (Some e) >>
        logger_Print "ERROR! Build failed." [] >>
        fmt_Println (Errors b) >>
        ret r
    | None =>
        let* g := get_vars in
        (match buildError g with
         | Some _ => logger_Print "Build Successful" []
         | None => ret tt
         end) >>
        set_buildError None >>
        let* g := get_vars in
        if immediate g
        then let* (r, _) := runner_Run r in ret r
        else ret r
    end in
  emit (EvSleep 100) >>
  ret (b, r).

(** The [rebuilder] closure of [mainAction]. *)
Definition rebuilder (b : builder) (r : R) (res : CmdResult)
  : M (builder * R) :=
  fmt_Println "" >>
  logger_Print "Restarting web server..." [] >>
  fmt_Println "" >>
  let* (r, _) := runner_Kill r in
  build b r res.

(** The condition under which the watcher goroutine of [createWatcher]
    calls [rebuilder] for an event. *)
Definition triggers_rebuild (binary : string) (ev : fsnotify.Event) : bool :=
  let umaskBinary := binary ++ "-go-tmp-umask" in
  negb (HasSuffix (fsnotify.Name ev) binary)
  && negb (HasSuffix (fsnotify.Name ev) umaskBinary)
  && ((N.land (fsnotify.Op ev) fsnotify.Write =? fsnotify.Write)%N
      || (N.land (fsnotify.Op ev) fsnotify.Rename =? fsnotify.Rename)%N
      || (N.land (fsnotify.Op ev) fsnotify.Create =? fsnotify.Create)%N
      || (N.land (fsnotify.Op ev) fsnotify.Remove =? fsnotify.Remove)%N).

(** Modelled from the spec: the proxy's handler for the restart path
    ([lib/proxy.go] is missing from the sources).  A request whose path
    equals the configured restart path invokes the rebuild callback the
    proxy was given, here the [rebuilder] closure. *)
Definition proxy_restart (b : builder) (r : R) (res : CmdResult)
  : M (builder * R) :=
  rebuilder b r res.

(** One turn of the goroutines started by [createWatcher] and by the
    proxy: the body of the loop over [watcher.Events], the body of the
    loop over [watcher.Errors], and a hit on the restart path. *)
Definition handle (binary : string) (t : trigger) (b : builder) (r : R)
  : M (builder * R) :=
  match t with
  | FileChange ev res =>
      if triggers_rebuild binary ev then rebuilder b r res else ret (b, r)
  | WatchError e =>
      logger_Fatal
        "ERROR! Problem observed while watching filesystem: %v." [AErr e]
  | HTTPEndpoint res => proxy_restart b r res
  end.

Fixpoint serve (binary : string) (ts : list trigger) (b : builder) (r : R)
  : M (builder * R) :=
  match ts with
  | [] => ret (b, r)
  | t :: ts' => let* (b, r) := handle binary t b r in serve binary ts' b r
  end.

(** [createWatcher], up to the start of its two goroutines. *)
Definition createWatcher (w : World) (path : string) : M unit :=
  let* absPath :=
    match filepath_Abs w with
    | inl a => ret a
    | inr e => logger_Fatal "ERROR! Failed to resolve path: %v." [AErr e]
    end in
  (match fsnotify_NewWatcher w with
   | Some e => logger_Fatal "ERROR! Failed to watch filesystem: %v." [AErr e]
   | None => ret tt
   end) >>
  (match watcher_Add w with
   | Some e => logger_Fatal "ERROR! Failed to watch filesystem: %v." [AErr e]
   | None => ret tt
   end) >>
  emit (EvWatch absPath).

(** [blockUntilExit], from the arrival of the signal on. *)
Definition on_signal (r : R) : M unit :=
  emit EvSignal >>
  let* (r, err) := runner_Kill r in
  (match err with
   | Some e => logger_Fatal "ERROR! Could not kill server: %v." [AErr e]
   | None => ret tt
   end) >>
  emit EvWatcherClose >>
  os_Exit 0.

(** [blockUntilExit]: registers for the signals, blocks while the
    goroutines serve the triggers of [ts], then shuts down. *)
Definition blockUntilExit (binary : string) (ts : list trigger)
    (b : builder) (r : R) : M unit :=
  emit EvSignalNotify >>
  let* (b, r) := serve binary ts b r in
  on_signal r.

Definition mainAction (c : Flags) (w : World) : M unit :=
  let port := flag_port c in
  let path := flag_path c in
  let godep := flag_godep c in
  let binary := flag_bin c in
  let appPort := Itoa (flag_appPort c) in
  set_immediate (negb (flag_lazy c)) >>
  os_Setenv "PORT" appPort >>
  let* wd :=
    match os_Getwd w with
    | inl d => ret d
    | inr e => logger_Fatal "%v" [AErr e]
    end in
  let builder := NewBuilder (goos w) path binary godep in
  let runner := NewRunner (filepath_Join wd (Binary builder)) (cli_args c) in
  let runner := SetWriter Stdout runner in
  let config := {| Port := port;
                   ProxyTo := "http://localhost:" ++ appPort;
                   Endpoint := flag_endpoint c |} in
  emit (EvProxyRun config) >>
  (match proxy_Run w with
   | Some e =>
       logger_Fatal "ERROR! Failed to start the proxy on port %d: %v."
                    [AInt port; AErr e]
   | None => ret tt
   end) >>
  logger_Print "Listening on port %d." [AInt port] >>
  let* (builder, runner) := build builder runner (first_build w) in
  createWatcher w path >>
  blockUntilExit binary (lifetime w) builder runner.

End WithRunner.
End Main.

(** ** Package main, the older entry point

    The second file of package [main] has no watcher: [mainAction] starts
    the proxy, installs the signal goroutine with [shutdown], builds once
    and returns. *)
Module Legacy.
Section WithRunner.

Context {R : Type} `{Runner R}.
Variable filepath_Join : string -> string -> string.

(** [build(builder, runner, logger)]: the body is that of the
    watcher-based file, with the package's logger passed in. *)
Definition build (b : builder) (r : R) (res : CmdResult) : M (builder * R) :=
  Main.build b r res.

(** The closure handed to [proxy.Run]. *)
Definition restart (b : builder) (r : R) (res : CmdResult)
  : M (builder * R) :=
  let* (r, _) := Main.runner_Kill r in
  build b r res.

(** The goroutine started by [shutdown], from the arrival of signal [s]
    on. *)
Definition on_signal (s : string) (r : R) : M unit :=
  emit EvSignal >>
  logger_Print "Got signal: " [AStr s] >>
  let* (r, err) := Main.runner_Kill r in
  (match err with
   | Some e => logger_Print "Error killing: " [AErr e]
   | None => ret tt
   end) >>
  os_Exit 1.

Definition shutdown (r : R) : M unit := emit EvSignalNotify.

Definition mainAction (c : Flags) (w : World) : M (builder * R) :=
  let port := flag_port c in
  let appPort := Itoa (flag_appPort c) in
  set_immediate (negb (flag_lazy c)) >>
  os_Setenv "PORT" appPort >>
  let* wd :=
    match os_Getwd w with
    | inl d => ret d
    | inr e => logger_Fatal "%v" [AErr e]
    end in
  let builder :=
    NewBuilder (goos w) (flag_path c) (flag_bin c) (flag_godep c) in
  let runner := NewRunner (filepath_Join wd (Binary builder)) (cli_args c) in
  let runner := SetWriter Stdout runner in
  let config := {| Port := port;
                   ProxyTo := "http://localhost:" ++ appPort;
                   Endpoint := flag_endpoint c |} in
  emit (EvProxyRun config) >>
  (match proxy_Run w with
   | Some e => logger_Fatal "%v" [AErr e]
   | None => ret tt
   end) >>
  logger_Print "listening on port %d" [AInt port] >>
  shutdown runner >>
  build builder runner (first_build w).

End WithRunner.
End Legacy.

(** A process as the operating system starts it: the package-level
    variables hold their initialisers. *)
Definition fresh (env : gmap string string) : process :=
  {| vars := {| immediate := false; buildError := None |};
     environ := env; out := [] |}.

(** The event log a computation adds to the process it starts from. *)
Definition trace_of {A} (m : M A) (p : process) : list event :=
  drop (length (out p)) (out (final (m p))).

(** Events of the startup sequence: setting an environment variable and
    starting the proxy. *)
Definition is_startup (e : event) : bool := is_Setenv e || is_ProxyRun e.

(** A computation is [quiet] when it only appends to the log, never sets
    an environment variable or starts the proxy, and leaves the startup
    mode alone. *)
Definition quiet {A} (m : M A) : Prop :=
  forall p,
    environ (final (m p)) = environ p
    /\ immediate (vars (final (m p))) = immediate (vars p)
    /\ exists t, (out (final (m p)) = out p ++ t)%list
                 /\ forallb (fun e => negb (is_startup e)) t = true.

(** The environment variables after the events of a log, starting from
    [env]. *)
Definition replay (l : list event) (env : gmap string string)
  : gmap string string :=
  foldl (fun m e => match e with
                    | EvSetenv k v => <[k := v]> m
                    | _ => m
                    end) env l.

(** The configuration record [mainAction] builds from the flags. *)
Definition config_of (c : Flags) : Config :=
  {| Port := flag_port c;
     ProxyTo := "http://localhost:" ++ Itoa (flag_appPort c);
     Endpoint := flag_endpoint c |}.

Definition exit_status {A} (o : outcome A) : option Z :=
  match o with Ret _ _ => None | Exit s _ => Some s end.

(** ** What a cycle writes to the log

    The log of one call of [build] and of one rebuild cycle, read off the
    code of [Main.build] and [Main.rebuilder]: given the builder, the
    toolchain's answer and the package-level variables at the start. *)
Definition build_log (b : builder) (res : CmdResult) (g : globals)
  : list event :=
  ([EvBuildCall (build_command b) (dir b); EvBuildReturn (snd (Build b res))]
   ++ match snd (Build b res) with
      | Some _ =>
          [EvLog "ERROR! Build failed." [];
           EvPrintln (Errors (fst (Build b res)))]
      | None =>
          match buildError g with
          | Some _ => [EvLog "Build Successful" []]
          | None => []
          end
          ++ (if immediate g then [EvRun] else [])
      end
   ++ [EvSleep 100])%list.

Definition cycle_log (b : builder) (res : CmdResult) (g : globals)
  : list event :=
  ([EvPrintln ""; EvLog "Restarting web server..." []; EvPrintln ""; EvKill]
   ++ build_log b res g)%list.

(** The process with [t] appended to its log. *)
Definition logged (t : list event) (p : process) : process :=
  {| vars := vars p; environ := environ p; out := out p ++ t |}.

(** The process after a build: the log extended, [buildError] assigned. *)
Definition after_build (b : builder) (res : CmdResult) (t : list event)
    (p : process) : process :=
  {| vars := {| immediate := immediate (vars p);
                buildError := snd (Build b res) |};
     environ := environ p;
     out := out p ++ t |}.

(** The runner after a build that started from runner [r]. *)
Definition runner_after_build {R} `{Runner R} (b : builder) (res : CmdResult)
    (g : globals) (r : R) : R :=
  match snd (Build b res) with
  | Some _ => r
  | None => if immediate g then fst (Run r) else r
  end.

(** ** Vocabulary of the whole-run properties *)

(** What the user reads on the terminal: the lines of the logger and of
    [fmt.Println]. *)
Definition is_message (e : event) : bool :=
  match e with EvLog _ _ | EvPrintln _ => true | _ => false end.

Definition messages (l : list event) : list event := List.filter is_message l.

(** [m] ends the process, if at all, with status 1. *)
Definition fatal_only {A} (m : M A) : Prop :=
  forall p, match m p with
            | Ret _ _ => True
            | Exit s _ => s = 1%Z
            end.

(** [m] never returns: it ends the process with status 1, or with status 0
    and a log that ends in the signal, [Kill] and the closing of the
    watcher. *)
Definition shuts_down {A} (m : M A) : Prop :=
  forall p, match m p with
            | Ret _ _ => False
            | Exit s p' =>
                s = 1%Z
                \/ (s = 0%Z
                    /\ exists pre,
                         (out p' = pre ++ [EvSignal; EvKill; EvWatcherClose])%list)
            end.

(** The error, if any, that stops [createWatcher]: of [filepath.Abs], of
    [fsnotify.NewWatcher] or of [watcher.Add], in the order of the calls. *)
Definition watcher_error (w : World) : option error :=
  match filepath_Abs w with
  | inr e => Some e
  | inl _ =>
      match fsnotify_NewWatcher w with
      | Some e => Some e
      | None => watcher_Add w
      end
  end.

(** The log of a startup up to the end of the first build. *)
Definition startup_log (c : Flags) (w : World) : list event :=
  ([EvSetenv "PORT" (Itoa (flag_appPort c));
    EvProxyRun (config_of c);
    EvLog "Listening on port %d." [AInt (flag_port c)]]
   ++ build_log (NewBuilder (goos w) (flag_path c) (flag_bin c)
                   (flag_godep c))
        (first_build w)
        {| immediate := negb (flag_lazy c); buildError := None |})%list.

(** Whether a trigger starts a rebuild cycle: a notification that passes
    the watcher's filter, or a hit on the restart path. *)
Definition starts_cycle (binary : string) (t : trigger) : bool :=
  match t with
  | FileChange ev _ => Main.triggers_rebuild binary ev
  | WatchError _ => false
  | HTTPEndpoint _ => true
  end.

(** A trigger other than an error of the watcher. *)
Definition is_change (t : trigger) : bool :=
  match t with WatchError _ => false | _ => true end.

(** ** Sample inputs *)
Module Samples.

(** A run of the toolchain that compiles cleanly. *)
Definition compiled : CmdResult :=
  {| output := ""; err := None; success := true |}.

(** A run stopped by a compile error. *)
Definition syntax_error : CmdResult :=
  {| output := "main.go:3: syntax error";
     err := Some (ExecError "exit status 2");
     success := false |}.

(** A run on a machine where the toolchain is not installed: the command
    never starts and nothing is captured. *)
Definition go_missing : CmdResult :=
  {| output := "";
     err := Some (ExecError "exec: go: executable file not found in $PATH");
     success := false |}.

(** A builder that still holds the text of an earlier failure. *)
Definition stale_builder : builder :=
  {| dir := "."; binary := ".sparkplug-bin";
     errors := "main.go:3: syntax error"; useGodep := false |}.

(** [filepath.Join] on two clean, non-empty elements. *)
Definition join (a b : string) : string := a ++ "/" ++ b.

(** The command line [sparkplug] with every flag at its default. *)
Definition default_flags : Flags :=
  {| flag_port := 3000; flag_appPort := 3001;
     flag_bin := ".sparkplug-bin"; flag_endpoint := "/restart";
     flag_path := "."; flag_lazy := false; flag_godep := false;
     cli_args := [] |}.

Definition lazy_flags : Flags :=
  {| flag_port := 3000; flag_appPort := 3001;
     flag_bin := ".sparkplug-bin"; flag_endpoint := "/restart";
     flag_path := "."; flag_lazy := true; flag_godep := false;
     cli_args := [] |}.

(** A run on Linux in which every call succeeds and nothing arrives
    before the signal. *)
Definition calm_world : World :=
  {| goos := "linux";
     os_Getwd := inl "/home/dev/app";
     proxy_Run := None;
     first_build := compiled;
     filepath_Abs := inl "/home/dev/app";
     fsnotify_NewWatcher := None;
     watcher_Add := None;
     lifetime := [] |}.

(** A supervised child that is up, and one whose graceful termination
    will not complete. *)
Definition running_child : SpecRunner :=
  {| artifact := "/home/dev/app/.sparkplug-bin"; args := [];
     outputSink := Some Stdout; pstate := Running;
     spawn_err := None; stop_err := None |}.

Definition stubborn_child : SpecRunner :=
  {| artifact := "/home/dev/app/.sparkplug-bin"; args := [];
     outputSink := Some Stdout; pstate := Running;
     spawn_err := None;
     stop_err := Some (ExecError "os: process already finished") |}.

(** A write to a source file, and the creation of the artifact as
    Windows names it when the binary flag is left at its default. *)
Definition source_written : fsnotify.Event :=
  {| fsnotify.Name := "/home/dev/app/main.go";
     fsnotify.Op := fsnotify.Write |}.

Definition windows_artifact_created : fsnotify.Event :=
  {| fsnotify.Name := "C:\dev\app\.sparkplug-bin.exe";
     fsnotify.Op := fsnotify.Create |}.

(** A child that cannot be spawned. *)
Definition unstartable_child : SpecRunner :=
  {| artifact := "/home/dev/app/.sparkplug-bin"; args := [];
     outputSink := Some Stdout; pstate := Stopped;
     spawn_err := Some (ExecError "fork/exec: permission denied");
     stop_err := None |}.

(** Runs in which one call of the startup sequence fails. *)
Definition no_cwd_world : World :=
  {| goos := "linux";
     os_Getwd := inr (ExecError "getwd: no such file or directory");
     proxy_Run := None; first_build := compiled;
     filepath_Abs := inl "/home/dev/app";
     fsnotify_NewWatcher := None; watcher_Add := None; lifetime := [] |}.

Definition port_taken_world : World :=
  {| goos := "linux"; os_Getwd := inl "/home/dev/app";
     proxy_Run := Some (ExecError "listen tcp :3000: address already in use");
     first_build := compiled; filepath_Abs := inl "/home/dev/app";
     fsnotify_NewWatcher := None; watcher_Add := None; lifetime := [] |}.

Definition no_watch_world : World :=
  {| goos := "linux"; os_Getwd := inl "/home/dev/app";
     proxy_Run := None; first_build := compiled;
     filepath_Abs := inl "/home/dev/app";
     fsnotify_NewWatcher := None;
     watcher_Add := Some (ExecError "no such file or directory");
     lifetime := [] |}.

(** A burst: a write that starts a cycle, then two more writes and a hit
    on the restart path that arrive while that cycle is in flight. *)
Definition burst : list trigger :=
  [FileChange source_written syntax_error;
   FileChange source_written syntax_error;
   FileChange source_written compiled;
   HTTPEndpoint compiled].

(** Notifications about the binary and its umask variant. *)
Definition binary_events : list fsnotify.Event :=
  [ {| fsnotify.Name := "/home/dev/app/.sparkplug-bin";
       fsnotify.Op := fsnotify.Create |};
    {| fsnotify.Name := "/home/dev/app/.sparkplug-bin-go-tmp-umask";
       fsnotify.Op := fsnotify.Write |} ].

(** A process in which the previous build succeeded, in either startup
    mode. *)
Definition immediate_process : process :=
  {| vars := {| immediate := true; buildError := None |};
     environ := {[ "PORT" := "3001" ]}; out := [] |}.

Definition lazy_process : process :=
  {| vars := {| immediate := false; buildError := None |};
     environ := {[ "PORT" := "3001" ]}; out := [] |}.

End Samples.

(** * Properties *)

(** ** Go strings *)
Section StringFacts.

Lemma length_append (s t : string) :
  String.length (s ++ t) = String.length s + String.length t.
Proof.
  induction s as [|a s IH]; [reflexivity|].
  change (String a s ++ t) with (String a (s ++ t)). simpl. now rewrite IH.
Qed.

Lemma append_String (a : ascii) (s t : string) :
  String a s ++ t = String a (s ++ t).
Proof. reflexivity. Qed.

Lemma append_assoc (s t u : string) : (s ++ t) ++ u = s ++ (t ++ u).
Proof.
  induction s as [|a s IH]; [reflexivity|].
  now rewrite !append_String, IH.
Qed.

Lemma append_empty_r (s : string) : s ++ "" = s.
Proof.
  induction s as [|a s IH]; [reflexivity|].
  now rewrite append_String, IH.
Qed.

Lemma slice_from_append (p s : string) :
  slice_from (String.length p) (p ++ s) = s.
Proof.
  induction p as [|a p IH]; [now destruct s|].
  rewrite append_String. exact IH.
Qed.

(** Every string is what comes before offset [n] followed by [s[n:]]. *)
Lemma slice_from_split (n : nat) (s : string) :
  n <= String.length s ->
  exists p, s = p ++ slice_from n s /\ String.length p = n.
Proof.
  revert s; induction n as [|n IH]; intros s Hn.
  - exists "". now destruct s.
  - destruct s as [|a s]; simpl in Hn; [lia|].
    destruct (IH s) as (p & Hp & Hl); [lia|].
    exists (String a p). rewrite append_String. simpl.
    split; [now rewrite <- Hp | now rewrite Hl].
Qed.

Lemma HasSuffix_append (p suffix : string) :
  HasSuffix (p ++ suffix) suffix = true.
Proof.
  unfold HasSuffix. rewrite length_append.
  replace (String.length p + String.length suffix - String.length suffix)
    with (String.length p) by lia.
  rewrite slice_from_append, String.eqb_refl, andb_true_r.
  apply Nat.leb_le. lia.
Qed.

(** [HasSuffix] holds exactly of the strings that end with the suffix. *)
Lemma HasSuffix_true (s suffix : string) :
  HasSuffix s suffix = true <-> exists p, s = p ++ suffix.
Proof.
  split.
  - unfold HasSuffix. intros [Hlen Heq]%andb_true_iff.
    apply Nat.leb_le in Hlen. apply String.eqb_eq in Heq.
    destruct (slice_from_split (String.length s - String.length suffix) s)
      as (p & Hp & _); [lia|].
    exists p. now rewrite Heq in Hp.
  - intros [p ->]. apply HasSuffix_append.
Qed.

Lemma append_cancel_r (s s' t : string) : s ++ t = s' ++ t -> s = s'.
Proof.
  revert s'; induction s as [|a s IH]; intros [|a' s'] Heq.
  - reflexivity.
  - apply (f_equal String.length) in Heq.
    rewrite !length_append in Heq. simpl in Heq. lia.
  - apply (f_equal String.length) in Heq.
    rewrite !length_append in Heq. simpl in Heq. lia.
  - rewrite !append_String in Heq. injection Heq as -> Heq.
    f_equal. now apply IH.
Qed.

Lemma HasSuffix_append_both (s u t : string) :
  HasSuffix (s ++ t) (u ++ t) = HasSuffix s u.
Proof.
  apply eq_true_iff_eq. rewrite !HasSuffix_true. split.
  - intros [p Hp]. exists p.
    apply (append_cancel_r _ _ t). now rewrite append_assoc.
  - intros [p ->]. exists p. now rewrite append_assoc.
Qed.

Lemma HasSuffix_nonempty (s suffix : string) :
  HasSuffix s suffix = true -> suffix <> "" -> s <> "".
Proof.
  intros [p ->]%HasSuffix_true Hne Hs. apply Hne.
  destruct p; [assumption | discriminate].
Qed.

Lemma append_nonempty_r (s t : string) : t <> "" -> s ++ t <> "".
Proof. intros Ht. destruct s; [assumption | discriminate]. Qed.

Lemma length_zero_iff (s : string) :
  (String.length s =? 0)%nat = true <-> s = "".
Proof. destruct s; simpl; split; intros; congruence. Qed.

End StringFacts.

(** ** The builder *)
Section BuilderFacts.

Example HasSuffix_exe : HasSuffix "app.exe" ".exe" = true.
Proof. reflexivity. Qed.
Example HasSuffix_short : HasSuffix "xe" ".exe" = false.
Proof. reflexivity. Qed.
Example HasSuffix_empty : HasSuffix "main.go" "" = true.
Proof. reflexivity. Qed.
Example Itoa_3001 : Itoa 3001 = "3001".
Proof. reflexivity. Qed.
Example Itoa_negative : Itoa (-42) = "-42".
Proof. reflexivity. Qed.

Example NewBuilder_default_linux :
  Binary (NewBuilder "linux" "." "" false) = "bin".
Proof. reflexivity. Qed.
Example NewBuilder_default_windows :
  Binary (NewBuilder "windows" "." "" false) = "bin.exe".
Proof. reflexivity. Qed.
Example NewBuilder_windows_keeps_exe :
  Binary (NewBuilder "windows" "." "server.exe" false) = "server.exe".
Proof. reflexivity. Qed.

(** The name [NewBuilder] settles on before the platform suffix. *)
Lemma NewBuilder_other_os (goos dir bin : string) (g : bool) :
  String.eqb goos "windows" = false ->
  Binary (NewBuilder goos dir bin g)
  = if (String.length bin =? 0)%nat then "bin" else bin.
Proof. intros Hos. unfold NewBuilder, Binary. simpl. now rewrite Hos. Qed.

Lemma NewBuilder_windows (dir bin : string) (g : bool) :
  Binary (NewBuilder "windows" dir bin g)
  = let name := if (String.length bin =? 0)%nat then "bin" else bin in
    if HasSuffix name ".exe" then name else name ++ ".exe".
Proof.
  unfold NewBuilder, Binary. simpl.
  now destruct (HasSuffix _ ".exe").
Qed.

Lemma HasSuffix_exe_exe (s : string) :
  HasSuffix s ".exe.exe" = true -> HasSuffix s ".exe" = true.
Proof.
  intros [p ->]%HasSuffix_true. apply HasSuffix_true.
  exists (p ++ ".exe"). now rewrite append_assoc.
Qed.


(** What [Build] stores and what it returns, case by case. *)
Lemma Build_errors (b : builder) (r : CmdResult) :
  Errors (fst (Build b r)) = if command_failed r then output r else "".
Proof. unfold Build. simpl. now destruct (0 <? _)%nat. Qed.

Lemma Build_returns (b : builder) (r : CmdResult) :
  snd (Build b r)
  = if (0 <? String.length (Errors (fst (Build b r))))%nat
    then Some (Errorf (Errors (fst (Build b r))))
    else err r.
Proof.
  unfold Build. simpl.
  destruct (0 <? _)%nat eqn:Hlen; simpl; now rewrite Hlen.
Qed.

Lemma length_pos_iff (s : string) :
  (0 <? String.length s)%nat = true <-> s <> "".
Proof.
  rewrite Nat.ltb_lt. destruct s; simpl; split; intros; try lia; congruence.
Qed.

(** The claim C2 as stated fails on the code: on a machine without the
    toolchain the run fails, [Build] returns the error, and yet the stored
    error text is empty. *)
Lemma Build_failure_with_empty_errors :
  let b := Samples.stale_builder in
  let r := Samples.go_missing in
  command_failed r = true
  /\ snd (Build b r) = err r
  /\ snd (Build b r) <> None
  /\ Errors (fst (Build b r)) = "".
Proof. cbv zeta. repeat split; discriminate. Qed.

(** C2, amended.  After every call to [Build] the stored error text is the
    captured output when the run of the toolchain failed and is empty
    otherwise: it is non-empty exactly when the run failed and printed
    something.  A successful run clears the text and returns no error; a
    non-empty text is returned as the error; with an empty text [Build]
    returns whatever error the run itself returned. *)
Theorem Build_errors_iff_failed_output (b : builder) (r : CmdResult) :
  let b' := fst (Build b r) in
  let e := snd (Build b r) in
  Errors b' = (if command_failed r then output r else "")
  /\ (Errors b' <> "" <-> command_failed r = true /\ output r <> "")
  /\ (command_failed r = false -> Errors b' = "" /\ e = None)
  /\ (e <> None <-> Errors b' <> "" \/ err r <> None)
  /\ (Errors b' <> "" -> e = Some (Errorf (Errors b')))
  /\ (Errors b' = "" -> e = err r)
  /\ e = (if String.eqb (Errors b') "" then err r
          else Some (Errorf (Errors b')))
  /\ dir b' = dir b /\ binary b' = binary b /\ useGodep b' = useGodep b.
Proof.
  cbv zeta.
  assert (command_failed r = false -> err r = None) as Hnil.
  { unfold command_failed. now destruct (err r). }
  assert (err r <> None -> command_failed r = true) as Herr.
  { unfold command_failed. now destruct (err r). }
  repeat match goal with |- _ /\ _ => split end;
    try (unfold Build; simpl; now destruct (0 <? _)%nat);
    rewrite ?Build_returns, ?Build_errors;
    destruct (command_failed r), (output r) as [|a o]; simpl;
    try tauto; try (intuition (discriminate || congruence)).
Qed.

End BuilderFacts.

(** ** The process monad *)
Section MonadFacts.

Lemma bind_Ret {A B} (m : M A) (k : A -> M B) (p p' : process) (a : A) :
  m p = Ret a p' -> bind m k p = k a p'.
Proof. unfold bind. now intros ->. Qed.

Lemma bind_Exit {A B} (m : M A) (k : A -> M B) (p p' : process) (s : Z) :
  m p = Exit s p' -> bind m k p = Exit s p'.
Proof. unfold bind. now intros ->. Qed.

Lemma trace_of_extends {A} (m : M A) (p : process) (t : list event) :
  (out (final (m p)) = out p ++ t)%list -> trace_of m p = t.
Proof. unfold trace_of. intros ->. apply drop_app_length. Qed.

Lemma quiet_ret {A} (a : A) : quiet (ret a).
Proof.
  intros p. simpl. repeat split. exists []. now rewrite app_nil_r.
Qed.

Lemma quiet_bind {A B} (m : M A) (k : A -> M B) :
  quiet m -> (forall a, quiet (k a)) -> quiet (bind m k).
Proof.
  intros Hm Hk p. destruct (Hm p) as (He & Hi & t & Ht & Hq).
  unfold bind. destruct (m p) as [a p'|s p']; simpl in *.
  - destruct (Hk a p') as (He' & Hi' & t' & Ht' & Hq').
    rewrite He', Hi', Ht', Ht, He, Hi. repeat split.
    exists (t ++ t')%list. rewrite app_assoc. split; [reflexivity|].
    rewrite forallb_app, Hq, Hq'. reflexivity.
  - repeat split; try assumption. now exists t.
Qed.

Lemma quiet_emit (e : event) : is_startup e = false -> quiet (emit e).
Proof.
  intros He p. simpl. repeat split. exists [e]. simpl. now rewrite He.
Qed.

Lemma quiet_os_Exit {A} (s : Z) : quiet (@os_Exit A s).
Proof.
  intros p. simpl. repeat split. exists []. now rewrite app_nil_r.
Qed.

Lemma quiet_logger_Print (f : string) (l : list arg) :
  quiet (logger_Print f l).
Proof. now apply quiet_emit. Qed.

Lemma quiet_logger_Fatal {A} (f : string) (l : list arg) :
  quiet (@logger_Fatal A f l).
Proof.
  apply quiet_bind; [now apply quiet_emit | intros _; apply quiet_os_Exit].
Qed.

Lemma quiet_fmt_Println (s : string) : quiet (fmt_Println s).
Proof. now apply quiet_emit. Qed.

Lemma quiet_get_vars : quiet get_vars.
Proof.
  intros p. simpl. repeat split. exists []. now rewrite app_nil_r.
Qed.

Lemma quiet_set_buildError (e : option error) : quiet (set_buildError e).
Proof.
  intros p. simpl. repeat split. exists []. now rewrite app_nil_r.
Qed.

End MonadFacts.

Create HintDb quiet.
#[export] Hint Resolve quiet_ret quiet_os_Exit quiet_logger_Print
  quiet_logger_Fatal quiet_fmt_Println quiet_get_vars quiet_set_buildError
  : quiet.
#[export] Hint Extern 1 (quiet (emit _)) =>
  (apply quiet_emit; reflexivity) : quiet.
#[export] Hint Extern 2 (quiet (bind _ _)) =>
  (apply quiet_bind; [|intros]) : quiet.
#[export] Hint Extern 3 (quiet (match ?x with _ => _ end)) =>
  destruct x : quiet.

(** ** One build, one rebuild cycle *)
Section CycleFacts.

Context {R : Type} `{Runner R}.
Local Open Scope list_scope.

Lemma build_eq (b : builder) (r : R) (res : CmdResult) (p : process) :
  Main.build b r res p
  = Ret (fst (Build b res), runner_after_build b res (vars p) r)
        (after_build b res (build_log b res (vars p)) p).
Proof.
  unfold Main.build, Main.builder_Build, Main.runner_Run, after_build,
    build_log, runner_after_build, bind, emit, ret, logger_Print,
    fmt_Println, set_buildError, get_vars.
  simpl. destruct (Build b res) as [b' [e|]]; simpl.
  - rewrite <- !app_assoc. reflexivity.
  - destruct p as [[imm [e0|]] env o]; simpl;
      destruct imm; simpl; destruct (Run r) as [r' e']; simpl;
      rewrite <- ?app_assoc; reflexivity.
Qed.

Lemma rebuilder_eq (b : builder) (r : R) (res : CmdResult) (p : process) :
  Main.rebuilder b r res p
  = Ret (fst (Build b res), runner_after_build b res (vars p) (fst (Kill r)))
        (after_build b res (cycle_log b res (vars p)) p).
Proof.
  unfold Main.rebuilder, Main.runner_Kill, bind at 1 2 3 4 5.
  unfold fmt_Println, logger_Print, emit, ret. simpl.
  destruct (Kill r) as [r' e']. simpl. rewrite build_eq.
  unfold after_build, cycle_log. simpl. rewrite <- !app_assoc. reflexivity.
Qed.

Lemma rebuilder_trace (b : builder) (r : R) (res : CmdResult) (p : process) :
  trace_of (Main.rebuilder b r res) p = cycle_log b res (vars p).
Proof. apply trace_of_extends. now rewrite rebuilder_eq. Qed.

Lemma build_trace (b : builder) (r : R) (res : CmdResult) (p : process) :
  trace_of (Main.build b r res) p = build_log b res (vars p).
Proof. apply trace_of_extends. now rewrite build_eq. Qed.

(** [Build]'s verdict does not depend on the builder it is called on. *)
Lemma Build_verdict (b b' : builder) (res : CmdResult) :
  snd (Build b res) = snd (Build b' res).
Proof. unfold Build. simpl. now destruct (0 <? _)%nat. Qed.

(** C8. In the log of every rebuild cycle there is exactly one [Kill],
    one call of [Build] and one return from it, in this order, and at
    most one [Run], which comes after [Build] has returned. *)
Theorem rebuilder_order (b : builder) (r : R) (res : CmdResult)
    (p : process) :
  let t := trace_of (Main.rebuilder b r res) p in
  exists k c d : nat,
    index_of is_Kill t = Some k
    /\ index_of is_BuildCall t = Some c
    /\ index_of is_BuildReturn t = Some d
    /\ k < c < d
    /\ count is_Kill t = 1
    /\ count is_BuildCall t = 1
    /\ count is_BuildReturn t = 1
    /\ count is_Run t <= 1
    /\ forall n : nat, t !! n = Some EvRun -> d < n.
Proof.
  cbv zeta. rewrite rebuilder_trace. exists 3, 4, 5.
  unfold cycle_log, build_log.
  destruct (snd (Build b res)) as [e|], (buildError (vars p)) as [e0|],
    (immediate (vars p)); simpl; unfold count; simpl;
    repeat split; try lia;
    intros n Hn; do 6 (destruct n as [|n]; [discriminate|]);
    try lia; repeat (destruct n as [|n]; try discriminate).
Qed.

End CycleFacts.

(** ** Nothing after startup touches the environment or the startup mode *)
Section QuietFacts.

Context {R : Type} `{Runner R}.

Lemma quiet_build (b : builder) (r : R) (res : CmdResult) :
  quiet (Main.build b r res).
Proof.
  unfold Main.build, Main.builder_Build, Main.runner_Run.
  auto 20 with quiet.
Qed.

Lemma quiet_rebuilder (b : builder) (r : R) (res : CmdResult) :
  quiet (Main.rebuilder b r res).
Proof.
  unfold Main.rebuilder, Main.runner_Kill.
  pose proof quiet_build. auto 20 with quiet.
Qed.

Lemma quiet_handle (binary : string) (t : trigger) (b : builder) (r : R) :
  quiet (Main.handle binary t b r).
Proof.
  pose proof quiet_rebuilder.
  destruct t; simpl; [destruct (Main.triggers_rebuild _ _)| |];
    auto with quiet.
Qed.

Lemma quiet_serve (binary : string) (ts : list trigger) (b : builder)
    (r : R) :
  quiet (Main.serve binary ts b r).
Proof.
  revert b r. induction ts as [|t ts IH]; intros b r; simpl.
  - apply quiet_ret.
  - apply quiet_bind; [apply quiet_handle | intros [b' r']; apply IH].
Qed.

Lemma quiet_createWatcher (w : World) (path : string) :
  quiet (Main.createWatcher w path).
Proof. unfold Main.createWatcher. auto 20 with quiet. Qed.

Lemma quiet_on_signal (r : R) : quiet (Main.on_signal r).
Proof.
  unfold Main.on_signal, Main.runner_Kill. auto 20 with quiet.
Qed.

Lemma quiet_blockUntilExit (binary : string) (ts : list trigger)
    (b : builder) (r : R) :
  quiet (Main.blockUntilExit binary ts b r).
Proof.
  unfold Main.blockUntilExit.
  pose proof quiet_serve. pose proof quiet_on_signal.
  auto 20 with quiet.
Qed.

End QuietFacts.

(** ** Startup *)
Section StartupFacts.

Context {R : Type} `{Runner R}.
Variable filepath_Join : string -> string -> string.
Local Open Scope list_scope.

(** [mainAction] assigns the startup mode and the [PORT] variable first
    and, once the working directory is known, starts the proxy;
    everything it does afterwards is quiet. *)
Lemma mainAction_startup (c : Flags) (w : World) (p : process) :
  let q := final (Main.mainAction filepath_Join c w p) in
  let appPort := Itoa (flag_appPort c) in
  environ q = <["PORT" := appPort]> (environ p)
  /\ immediate (vars q) = negb (flag_lazy c)
  /\ exists t,
       out q = out p ++ EvSetenv "PORT" appPort
                        :: match os_Getwd w with
                           | inl _ => EvProxyRun (config_of c) :: t
                           | inr _ => t
                           end
       /\ forallb (fun e => negb (is_startup e)) t = true.
Proof.
  cbv zeta. unfold Main.mainAction. cbv zeta.
  erewrite bind_Ret by reflexivity.
  erewrite bind_Ret by reflexivity.
  destruct (os_Getwd w) as [wd|e].
  - erewrite bind_Ret by reflexivity.
    erewrite bind_Ret by reflexivity.
    match goal with
    | |- context [final (?m ?q)] =>
        assert (quiet m) as Hq;
        [ pose proof quiet_build; pose proof quiet_createWatcher;
          pose proof quiet_blockUntilExit; auto 30 with quiet
        | destruct (Hq q) as (He & Hi & t & Ht & Hs) ]
    end.
    rewrite He, Hi, Ht. simpl. repeat split.
    exists t. now rewrite <- !app_assoc.
  - simpl. repeat split. exists [EvLog "%v" [AErr e]].
    now rewrite <- !app_assoc.
Qed.

Lemma Legacy_mainAction_startup (c : Flags) (w : World) (p : process) :
  let q := final (Legacy.mainAction filepath_Join c w p) in
  let appPort := Itoa (flag_appPort c) in
  environ q = <["PORT" := appPort]> (environ p)
  /\ immediate (vars q) = negb (flag_lazy c)
  /\ exists t,
       out q = out p ++ EvSetenv "PORT" appPort
                        :: match os_Getwd w with
                           | inl _ => EvProxyRun (config_of c) :: t
                           | inr _ => t
                           end
       /\ forallb (fun e => negb (is_startup e)) t = true.
Proof.
  cbv zeta. unfold Legacy.mainAction, Legacy.shutdown, Legacy.build.
  cbv zeta.
  erewrite bind_Ret by reflexivity.
  erewrite bind_Ret by reflexivity.
  destruct (os_Getwd w) as [wd|e].
  - erewrite bind_Ret by reflexivity.
    erewrite bind_Ret by reflexivity.
    match goal with
    | |- context [final (?m ?q)] =>
        assert (quiet m) as Hq;
        [ pose proof quiet_build; auto 30 with quiet
        | destruct (Hq q) as (He & Hi & t & Ht & Hs) ]
    end.
    rewrite He, Hi, Ht. simpl. repeat split.
    exists t. now rewrite <- !app_assoc.
  - simpl. repeat split. exists [EvLog "%v" [AErr e]].
    now rewrite <- !app_assoc.
Qed.

Lemma replay_calm (l : list event) (m : gmap string string) :
  forallb (fun e => negb (is_Setenv e)) l = true -> replay l m = m.
Proof.
  unfold replay. revert m. induction l as [|e l IH]; intros m Hl.
  - reflexivity.
  - simpl in Hl. apply andb_true_iff in Hl as [He Hl].
    simpl. destruct e; try discriminate; now apply IH.
Qed.

Lemma forallb_take (f : event -> bool) (n : nat) (l : list event) :
  forallb f l = true -> forallb f (take n l) = true.
Proof.
  revert n. induction l as [|e l IH]; intros [|n] Hl; try reflexivity.
  simpl in *. apply andb_true_iff in Hl as [-> Hl]. now apply IH.
Qed.

Lemma startup_free_calm (l : list event) :
  forallb (fun e => negb (is_startup e)) l = true ->
  forallb (fun e => negb (is_Setenv e)) l = true.
Proof.
  induction l as [|e l IH]; [reflexivity|]. simpl.
  intros [He Hl]%andb_true_iff. rewrite IH by assumption.
  unfold is_startup in He. now destruct (is_Setenv e).
Qed.

(** What the two startup lemmas say about a log that starts empty: the
    first event sets [PORT], the proxy is started with [config_of c] or
    not at all, and no other event sets a variable or starts a proxy. *)
Lemma startup_log_facts (c : Flags) (env : gmap string string)
    (l : list event) (getwd : string + error) (t : list event) :
  l = EvSetenv "PORT" (Itoa (flag_appPort c))
        :: match getwd with
           | inl _ => EvProxyRun (config_of c) :: t
           | inr _ => t
           end ->
  forallb (fun e => negb (is_startup e)) t = true ->
  (forall cfg, In (EvProxyRun cfg) l -> cfg = config_of c)
  /\ (forall n, 0 < n ->
        replay (take n l) env = <["PORT" := Itoa (flag_appPort c)]> env)
  /\ replay l env = <["PORT" := Itoa (flag_appPort c)]> env.
Proof.
  intros -> Ht.
  assert (forall cfg, In (EvProxyRun cfg) t -> False) as Hno.
  { intros cfg Hin. rewrite forallb_forall in Ht.
    specialize (Ht _ Hin). discriminate. }
  set (rest := match getwd with
               | inl _ => EvProxyRun (config_of c) :: t
               | inr _ => t
               end).
  assert (forallb (fun e => negb (is_Setenv e)) rest = true) as Hcalm.
  { subst rest. destruct getwd; simpl; now apply startup_free_calm. }
  split; [|split].
  - intros cfg [Hin|Hin]; [discriminate|]. subst rest.
    destruct getwd.
    + destruct Hin as [Heq|Hin]; [congruence | now destruct (Hno cfg)].
    + now destruct (Hno cfg).
  - intros [|n] Hn; [lia|]. simpl.
    change (replay (take n rest) (<["PORT" := Itoa (flag_appPort c)]> env)
            = <["PORT" := Itoa (flag_appPort c)]> env).
    apply replay_calm. now apply forallb_take.
  - simpl.
    change (replay rest (<["PORT" := Itoa (flag_appPort c)]> env)
            = <["PORT" := Itoa (flag_appPort c)]> env).
    now apply replay_calm.
Qed.

(** C10. In both entry points the [PORT] variable is set to the decimal
    text of the application port before anything else happens, the proxy
    is only ever started with the backend address
    ["http://localhost:" ++ appPort], and no later event of the run
    changes the environment: at every later point of the log, and so at
    every [Run] of the child, [PORT] still holds that port. *)
Theorem PORT_is_backend_port (c : Flags) (w : World)
    (env : gmap string string) :
  let appPort := Itoa (flag_appPort c) in
  let holds (q : process) :=
    (forall cfg, In (EvProxyRun cfg) (out q) ->
                 ProxyTo cfg = "http://localhost:" ++ appPort)%string
    /\ (forall n, 0 < n -> replay (take n (out q)) env !! "PORT" = Some appPort)
    /\ (forall n, out q !! n = Some EvRun ->
                  replay (take n (out q)) env !! "PORT" = Some appPort)
    /\ replay (out q) env = environ q
    /\ environ q !! "PORT" = Some appPort in
  holds (final (Main.mainAction filepath_Join c w (fresh env)))
  /\ holds (final (Legacy.mainAction filepath_Join c w (fresh env))).
Proof.
  cbv zeta.
  destruct (mainAction_startup c w (fresh env)) as (He & _ & t & Ht & Hs).
  destruct (Legacy_mainAction_startup c w (fresh env))
    as (He' & _ & t' & Ht' & Hs').
  simpl in Ht, Ht'.
  destruct (startup_log_facts c env _ _ _ Ht Hs) as (Hc & Hn & Hr).
  destruct (startup_log_facts c env _ _ _ Ht' Hs') as (Hc' & Hn' & Hr').
  split.
  - rewrite He. simpl. repeat split.
    + intros cfg Hin. now rewrite (Hc cfg Hin).
    + intros n Hpos. rewrite Hn by assumption. apply lookup_insert_eq.
    + intros n Hrun. destruct n as [|n].
      * rewrite Ht in Hrun. discriminate.
      * rewrite Hn by lia. apply lookup_insert_eq.
    + exact Hr.
    + apply lookup_insert_eq.
  - rewrite He'. simpl. repeat split.
    + intros cfg Hin. now rewrite (Hc' cfg Hin).
    + intros n Hpos. rewrite Hn' by assumption. apply lookup_insert_eq.
    + intros n Hrun. destruct n as [|n].
      * rewrite Ht' in Hrun. discriminate.
      * rewrite Hn' by lia. apply lookup_insert_eq.
    + exact Hr'.
    + apply lookup_insert_eq.
Qed.

(** The claim C5 as stated fails on the code: with every flag at its
    default and every call succeeding, the proxy is started (second event)
    and announced as listening (third event) before [Build] is first
    called (fourth event). *)
Lemma proxy_runs_before_first_build :
  let t := out (final (Main.mainAction (R := SpecRunner) Samples.join
                         Samples.default_flags Samples.calm_world
                         (fresh ∅))) in
  index_of is_ProxyRun t = Some 1
  /\ t !! 2 = Some (EvLog "Listening on port %d." [AInt 3000])
  /\ index_of is_BuildCall t = Some 3.
Proof. vm_compute. repeat split. Qed.

(** C5, amended.  On normal startup (the working directory resolves and
    the proxy starts) both entry points start the proxy on the listen
    port and log that it is listening before they perform the one initial
    build-and-(conditionally)start cycle. *)
Theorem proxy_then_first_build (c : Flags) (w : World)
    (env : gmap string string) (wd : string) :
  os_Getwd w = inl wd ->
  proxy_Run w = None ->
  let b := NewBuilder (goos w) (flag_path c) (flag_bin c) (flag_godep c) in
  let g := {| immediate := negb (flag_lazy c); buildError := None |} in
  let first := build_log b (first_build w) g in
  let t := out (final (Main.mainAction filepath_Join c w (fresh env))) in
  let t' := out (final (Legacy.mainAction filepath_Join c w (fresh env))) in
  (exists rest,
      t = [EvSetenv "PORT" (Itoa (flag_appPort c));
           EvProxyRun (config_of c);
           EvLog "Listening on port %d." [AInt (flag_port c)]]
          ++ first ++ rest)
  /\ t' = [EvSetenv "PORT" (Itoa (flag_appPort c));
           EvProxyRun (config_of c);
           EvLog "listening on port %d" [AInt (flag_port c)];
           EvSignalNotify]
          ++ first
  /\ index_of is_ProxyRun t = Some 1
  /\ index_of is_BuildCall t = Some 3
  /\ index_of is_ProxyRun t' = Some 1
  /\ index_of is_BuildCall t' = Some 4.
Proof.
  intros Hwd Hproxy. cbv zeta.
  assert (exists rest,
    out (final (Main.mainAction filepath_Join c w (fresh env)))
    = [EvSetenv "PORT" (Itoa (flag_appPort c));
       EvProxyRun (config_of c);
       EvLog "Listening on port %d." [AInt (flag_port c)]]
      ++ build_log (NewBuilder (goos w) (flag_path c) (flag_bin c)
                      (flag_godep c)) (first_build w)
           {| immediate := negb (flag_lazy c); buildError := None |}
      ++ rest) as [rest Hmain].
  { unfold Main.mainAction. cbv zeta. rewrite Hwd, Hproxy.
    do 6 (erewrite bind_Ret by reflexivity).
    erewrite bind_Ret by apply build_eq.
    match goal with
    | |- context [final (?m ?q)] =>
        assert (quiet m) as Hq;
        [ pose proof quiet_createWatcher; pose proof quiet_blockUntilExit;
          auto 30 with quiet
        | destruct (Hq q) as (_ & _ & rest & Ht & _) ]
    end.
    exists rest. rewrite Ht. simpl. reflexivity. }
  assert (
    out (final (Legacy.mainAction filepath_Join c w (fresh env)))
    = [EvSetenv "PORT" (Itoa (flag_appPort c));
       EvProxyRun (config_of c);
       EvLog "listening on port %d" [AInt (flag_port c)];
       EvSignalNotify]
      ++ build_log (NewBuilder (goos w) (flag_path c) (flag_bin c)
                      (flag_godep c)) (first_build w)
           {| immediate := negb (flag_lazy c); buildError := None |})
    as Hlegacy.
  { unfold Legacy.mainAction, Legacy.shutdown, Legacy.build. cbv zeta.
    rewrite Hwd, Hproxy.
    do 7 (erewrite bind_Ret by reflexivity).
    rewrite build_eq. reflexivity. }
  rewrite Hmain, Hlegacy. repeat split; eauto.
Qed.

End StartupFacts.

(** On a calm Linux run with the lazy flag the hypotheses of
    [proxy_then_first_build] hold, and [Build] is first called as the fourth
    event. *)
Lemma proxy_then_first_build_witness :
  os_Getwd Samples.calm_world = inl "/home/dev/app"
  /\ proxy_Run Samples.calm_world = None
  /\ index_of is_BuildCall
       (out (final (Main.mainAction (R := SpecRunner) Samples.join
                      Samples.lazy_flags Samples.calm_world (fresh ∅))))
     = Some 3.
Proof.
  refine (conj eq_refl (conj eq_refl _)).
  exact (proj1 (proj2 (proj2 (proj2
           (proxy_then_first_build (R := SpecRunner) Samples.join
              Samples.lazy_flags Samples.calm_world ∅ "/home/dev/app"
              eq_refl eq_refl))))).
Defined.

(** ** The startup mode and the outcome of the build decide on [Run] *)
Section ModeFacts.

Context {R : Type} `{Runner R}.
Local Open Scope list_scope.

Lemma count_app (f : event -> bool) (l l' : list event) :
  count f (l ++ l') = count f l + count f l'.
Proof. unfold count. now rewrite List.filter_app, length_app. Qed.

(** A quiet computation's own log is what it appended. *)
Lemma quiet_trace {A} (m : M A) (p : process) :
  quiet m -> out (final (m p)) = out p ++ trace_of m p.
Proof.
  intros Hq. destruct (Hq p) as (_ & _ & t & Ht & _).
  now rewrite (trace_of_extends m p t Ht).
Qed.

Lemma count_trace {A} (f : event -> bool) (m : M A) (p : process) :
  quiet m ->
  count f (out (final (m p))) = count f (out p) ->
  count f (trace_of m p) = 0.
Proof.
  intros Hq Hc. rewrite (quiet_trace m p Hq), count_app in Hc. lia.
Qed.

Lemma count_build_log_Run (b : builder) (res : CmdResult) (g : globals) :
  count is_Run (build_log b res g)
  = match snd (Build b res) with
    | Some _ => 0
    | None => if immediate g then 1 else 0
    end.
Proof.
  unfold build_log.
  destruct (snd (Build b res)), (buildError g), (immediate g); reflexivity.
Qed.

Lemma count_cycle_log_Run (b : builder) (res : CmdResult) (g : globals) :
  count is_Run (cycle_log b res g) = count is_Run (build_log b res g).
Proof. reflexivity. Qed.

(** A run of triggers whose builds all fail, started with no child alive
    and an error on record, never calls [Run]: the child stays down and
    an error stays on record. *)
Lemma serve_all_failing `{!RunnerStops R} (binary : string)
    (ts : list trigger) :
  (forall t res, In t ts -> trigger_result t = Some res ->
                 forall b, snd (Build b res) <> None) ->
  forall (b : builder) (r : R) (p : process),
    IsRunning r = false ->
    buildError (vars p) <> None ->
    count is_Run (out (final (Main.serve binary ts b r p)))
    = count is_Run (out p)
    /\ forall b' r' p',
         Main.serve binary ts b r p = Ret (b', r') p' ->
         IsRunning r' = false /\ buildError (vars p') <> None.
Proof.
  induction ts as [|t ts IH]; intros Hfail b r p Hr He.
  - simpl. split; [reflexivity|]. intros b' r' p' [= <- <- <-]. now split.
  - assert (forall t' res, In t' ts -> trigger_result t' = Some res ->
                           forall b, snd (Build b res) <> None) as Hts
      by (intros t' res Hin; apply Hfail; now right).
    assert (forall res, trigger_result t = Some res ->
              Main.handle binary t b r p = Main.rebuilder b r res p ->
              count is_Run (out (final (Main.serve binary (t :: ts) b r p)))
              = count is_Run (out p)
              /\ forall b' r' p',
                   Main.serve binary (t :: ts) b r p = Ret (b', r') p' ->
                   IsRunning r' = false /\ buildError (vars p') <> None)
      as Hcycle.
    { intros res Hres Hh.
      pose proof (Hfail t res (or_introl eq_refl) Hres b) as Hb.
      simpl. unfold bind. rewrite Hh, rebuilder_eq.
      unfold runner_after_build.
      destruct (snd (Build b res)) as [e|] eqn:Hv; [|congruence].
      destruct (IH Hts (fst (Build b res)) (fst (Kill r))
                  (after_build b res (cycle_log b res (vars p)) p))
        as [Hc Hk].
      - apply Kill_stops.
      - simpl. rewrite Hv. discriminate.
      - split; [|exact Hk].
        rewrite Hc. simpl. rewrite count_app, count_cycle_log_Run,
          count_build_log_Run, Hv. lia. }
    destruct t as [ev res|e|res].
    + simpl in Hcycle |- *.
      destruct (Main.triggers_rebuild binary ev) eqn:Htr.
      * now apply (Hcycle res).
      * unfold bind. simpl. now apply IH.
    + simpl. unfold bind. simpl. unfold count. rewrite List.filter_app.
      simpl. rewrite app_nil_r. split; [reflexivity | discriminate].
    + now apply (Hcycle res).
Qed.

(** C3. [mainAction] sets the startup mode to the negation of the lazy
    flag.  In a rebuild cycle whose [Build] succeeds, run in a process
    with that mode: without the lazy flag [Run] is called, exactly once,
    on the runner [Kill] left behind; with the lazy flag [Run] is not
    called, the runner is the one [Kill] left behind and no child is
    alive. *)
Theorem successful_cycle_runs_unless_lazy `{!RunnerStops R}
    (filepath_Join : string -> string -> string) (c : Flags)
    (b : builder) (r : R) (res : CmdResult) (p : process) :
  snd (Build b res) = None ->
  immediate (vars p) = negb (flag_lazy c) ->
  let t := trace_of (Main.rebuilder b r res) p in
  let r' := if flag_lazy c then fst (Kill r) else fst (Run (fst (Kill r))) in
  (forall w env,
      immediate (vars (final (Main.mainAction filepath_Join c w (fresh env))))
      = negb (flag_lazy c))
  /\ Main.rebuilder b r res p
     = Ret (fst (Build b res), r')
           (after_build b res (cycle_log b res (vars p)) p)
  /\ count is_Run t = (if flag_lazy c then 0 else 1)
  /\ (if flag_lazy c then IsRunning r' = false else In EvRun t).
Proof.
  intros Hok Hmode. cbv zeta. split; [|split; [|split]].
  - intros w env. apply (mainAction_startup filepath_Join c w (fresh env)).
  - rewrite rebuilder_eq. unfold runner_after_build.
    rewrite Hok, Hmode. now destruct (flag_lazy c).
  - rewrite rebuilder_trace, count_cycle_log_Run, count_build_log_Run.
    rewrite Hok, Hmode. now destruct (flag_lazy c).
  - destruct (flag_lazy c) eqn:Hlazy; [apply Kill_stops|].
    rewrite rebuilder_trace. unfold cycle_log, build_log.
    rewrite Hok, Hmode. simpl.
    destruct (buildError (vars p)); simpl; tauto.
Qed.

(** C4. In a rebuild cycle whose [Build] fails, whatever the startup
    mode: the error is stored in [buildError] and the builder's error text
    is printed, [Run] is not called, and the runner is the one [Kill]
    left behind, with no child alive.  This lasts: through any further
    triggers whose builds fail, [Run] is still not called, no child is
    alive and an error stays on record. *)
Theorem failed_cycle_leaves_stopped `{!RunnerStops R} (b : builder)
    (r : R) (res : CmdResult) (p : process) (e : error) (binary : string)
    (ts : list trigger) :
  snd (Build b res) = Some e ->
  (forall t res', In t ts -> trigger_result t = Some res' ->
                  forall b', snd (Build b' res') <> None) ->
  let t := trace_of (Main.rebuilder b r res) p in
  let b1 := fst (Build b res) in
  let r1 := fst (Kill r) in
  let p1 := after_build b res (cycle_log b res (vars p)) p in
  Main.rebuilder b r res p = Ret (b1, r1) p1
  /\ buildError (vars p1) = Some e
  /\ In (EvPrintln (Errors b1)) t
  /\ count is_Run t = 0
  /\ IsRunning r1 = false
  /\ count is_Run (trace_of (Main.serve binary ts b1 r1) p1) = 0
  /\ forall b2 r2 p2,
       Main.serve binary ts b1 r1 p1 = Ret (b2, r2) p2 ->
       IsRunning r2 = false /\ buildError (vars p2) <> None.
Proof.
  intros Hfail Hts. cbv zeta.
  assert (buildError (vars (after_build b res (cycle_log b res (vars p)) p))
          = Some e) as Herr by (simpl; exact Hfail).
  destruct (serve_all_failing binary ts Hts (fst (Build b res))
              (fst (Kill r))
              (after_build b res (cycle_log b res (vars p)) p))
    as [Hcount Hkeep]; [apply Kill_stops | congruence |].
  repeat split.
  - rewrite rebuilder_eq. unfold runner_after_build. now rewrite Hfail.
  - exact Herr.
  - rewrite rebuilder_trace. unfold cycle_log, build_log. rewrite Hfail.
    simpl. tauto.
  - rewrite rebuilder_trace, count_cycle_log_Run, count_build_log_Run.
    now rewrite Hfail.
  - apply Kill_stops.
  - apply count_trace; [apply quiet_serve | exact Hcount].
  - now apply (Hkeep b2 r2 p2).
  - now apply (Hkeep b2 r2 p2).
Qed.

End ModeFacts.

(** The runner modelled from the spec meets the contract: [Stop] always
    ends in [Stopped]. *)
#[export] Instance SpecRunner_stops : RunnerStops SpecRunner.
Proof.
  split. intros [bin a sink [] spawn stop]; reflexivity.
Qed.

(** ** The watcher's filter *)
Section WatcherFacts.

Context {R : Type} `{Runner R}.
Local Open Scope list_scope.

Example source_write_triggers :
  Main.triggers_rebuild ".sparkplug-bin" Samples.source_written = true.
Proof. reflexivity. Qed.

Example chmod_does_not_trigger :
  Main.triggers_rebuild ".sparkplug-bin"
    {| fsnotify.Name := "/home/dev/app/main.go";
       fsnotify.Op := fsnotify.Chmod |} = false.
Proof. reflexivity. Qed.

(** An event whose name ends in the name the watcher was given, or in
    that name followed by [-go-tmp-umask], never triggers a rebuild:
    the goroutine's turn leaves the builder, the runner and the process
    as they were. *)
Lemma suffix_event_filtered (binary prefix : string) (op : N)
    (res : CmdResult) (b : builder) (r : R) (p : process) :
  let ev := {| fsnotify.Name := (prefix ++ binary)%string;
               fsnotify.Op := op |} in
  let ev' := {| fsnotify.Name :=
                  (prefix ++ binary ++ "-go-tmp-umask")%string;
                fsnotify.Op := op |} in
  Main.triggers_rebuild binary ev = false
  /\ Main.triggers_rebuild binary ev' = false
  /\ Main.handle binary (FileChange ev res) b r p = Ret (b, r) p
  /\ Main.handle binary (FileChange ev' res) b r p = Ret (b, r) p.
Proof.
  cbv zeta.
  assert (Main.triggers_rebuild binary
            {| fsnotify.Name := (prefix ++ binary)%string;
               fsnotify.Op := op |} = false) as Hb.
  { unfold Main.triggers_rebuild. simpl.
    now rewrite HasSuffix_append. }
  assert (Main.triggers_rebuild binary
            {| fsnotify.Name :=
                 (prefix ++ binary ++ "-go-tmp-umask")%string;
               fsnotify.Op := op |} = false) as Hu.
  { unfold Main.triggers_rebuild. simpl.
    rewrite (HasSuffix_append prefix (binary ++ "-go-tmp-umask")).
    now rewrite andb_false_r. }
  repeat split; try assumption; simpl; now rewrite ?Hb, ?Hu.
Qed.

(** Where [NewBuilder] keeps the name of the flag, an event on the
    compiled artifact is filtered. *)
Lemma artifact_event_filtered (goos dir bin prefix : string) (g : bool)
    (op : N) :
  Binary (NewBuilder goos dir bin g) = bin ->
  Main.triggers_rebuild bin
    {| fsnotify.Name := (prefix ++ Binary (NewBuilder goos dir bin g))%string;
       fsnotify.Op := op |} = false.
Proof.
  intros ->. unfold Main.triggers_rebuild. simpl.
  now rewrite HasSuffix_append.
Qed.

(** The watcher goroutine runs one full cycle per event that passes the
    filter, one after the other and in the order of arrival: nothing is
    coalesced. *)
Lemma serve_cycles (binary : string) (evs : list fsnotify.Event)
    (res : CmdResult) (b : builder) (r : R) (p : process) :
  count is_BuildCall
    (trace_of (Main.serve binary (map (fun ev => FileChange ev res) evs)
                 b r) p)
  = length (List.filter (Main.triggers_rebuild binary) evs).
Proof.
  assert (forall evs b r p,
    count is_BuildCall
      (out (final (Main.serve binary
                     (map (fun ev => FileChange ev res) evs) b r p)))
    = count is_BuildCall (out p)
      + length (List.filter (Main.triggers_rebuild binary) evs)) as Hgen.
  { clear. intros evs. induction evs as [|ev evs IH]; intros b r p.
    - simpl. lia.
    - simpl. unfold bind.
      destruct (Main.triggers_rebuild binary ev) eqn:Htr.
      + rewrite rebuilder_eq, IH. simpl. rewrite count_app.
        unfold cycle_log, build_log.
        destruct (snd (Build b res)), (buildError (vars p)),
          (immediate (vars p)); unfold count; simpl; lia.
      + simpl. now rewrite IH. }
  pose proof (quiet_trace _ p (quiet_serve binary
    (map (fun ev => FileChange ev res) evs) b r)) as Hq.
  specialize (Hgen evs b r p). rewrite Hq, count_app in Hgen. lia.
Qed.


(** C7.  On Windows, with the binary flag at its default, the artifact
    [NewBuilder] names is [.sparkplug-bin.exe], while the watcher filters
    on the flag's value [.sparkplug-bin]: the creation of the artifact
    passes the filter and starts a rebuild cycle. *)
Theorem windows_artifact_event_rebuilds :
  let bin := flag_bin Samples.default_flags in
  let b := NewBuilder "windows" "." bin false in
  let ev := Samples.windows_artifact_created in
  let t := trace_of (Main.handle bin (FileChange ev Samples.compiled)
                       b Samples.running_child)
                    Samples.immediate_process in
  Binary b = ".sparkplug-bin.exe"
  /\ HasSuffix (fsnotify.Name ev) (Binary b) = true
  /\ Main.triggers_rebuild bin ev = true
  /\ t = cycle_log b Samples.compiled (vars Samples.immediate_process)
  /\ count is_BuildCall t = 1.
Proof. vm_compute. repeat split. Qed.

End WatcherFacts.

(** ** Shutdown *)
Section ShutdownFacts.

Context {R : Type} `{Runner R}.
Local Open Scope list_scope.

(** The watcher-based entry point, once the signal has arrived: [Kill]
    is called; if it succeeds the watcher is closed and the process exits
    with status 0; if it fails the failure is logged by [logger.Fatalf]
    and the process exits with status 1, the watcher left open. *)
Lemma on_signal_eq (r : R) (p : process) :
  Main.on_signal r p
  = match snd (Kill r) with
    | None => Exit 0 (logged [EvSignal; EvKill; EvWatcherClose] p)
    | Some e =>
        Exit 1 (logged [EvSignal; EvKill;
                        EvLog "ERROR! Could not kill server: %v." [AErr e]]
                       p)
    end.
Proof.
  unfold Main.on_signal, Main.runner_Kill, logger_Fatal, bind, emit,
    os_Exit, ret, logged.
  simpl. destruct (Kill r) as [r' [e|]]; simpl;
    rewrite <- !app_assoc; reflexivity.
Qed.

(** [blockUntilExit] never returns: the process ends with an exit
    status, whatever arrives before the signal. *)
Lemma blockUntilExit_exits (binary : string) (ts : list trigger)
    (b : builder) (r : R) (p : process) :
  exists s, exit_status (Main.blockUntilExit binary ts b r p) = Some s.
Proof.
  unfold Main.blockUntilExit, bind, emit.
  destruct (Main.serve binary ts b r _) as [[b' r'] p'|s p'].
  - rewrite on_signal_eq. destruct (snd (Kill r')); simpl; eauto.
  - simpl. eauto.
Qed.

(** The older entry point, once the signal has arrived: the signal is
    logged, [Kill] is called, a failure of [Kill] is logged, and the
    process exits with status 1 in either case. *)
Lemma Legacy_on_signal_eq (s : string) (r : R) (p : process) :
  Legacy.on_signal s r p
  = Exit 1 (logged ([EvSignal; EvLog "Got signal: " [AStr s]; EvKill]
                    ++ match snd (Kill r) with
                       | None => []
                       | Some e => [EvLog "Error killing: " [AErr e]]
                       end) p).
Proof.
  unfold Legacy.on_signal, Main.runner_Kill, logger_Print, bind, emit,
    os_Exit, ret, logged.
  simpl. destruct (Kill r) as [r' [e|]]; simpl;
    rewrite <- !app_assoc; reflexivity.
Qed.

(** A child whose graceful termination does not complete: the failure is
    logged and the watcher-based entry point exits with status 1. *)
Example on_signal_kill_failure :
  Main.on_signal Samples.stubborn_child Samples.immediate_process
  = Exit 1 (logged [EvSignal; EvKill;
                    EvLog "ERROR! Could not kill server: %v."
                          [AErr (ExecError "os: process already finished")]]
                   Samples.immediate_process).
Proof. reflexivity. Qed.

End ShutdownFacts.

(** C6.  The older entry point does not do what the claim says: on an
    interrupt with a child that stops cleanly, its signal goroutine calls
    [Kill], which succeeds, and then exits with status 1, where the
    watcher-based entry point exits with status 0. *)
Theorem Legacy_signal_exit_status :
  let r := Samples.running_child in
  let p := Samples.immediate_process in
  snd (Kill r) = None
  /\ exit_status (Legacy.on_signal "interrupt" r p) = Some 1%Z
  /\ exit_status (Main.on_signal r p) = Some 0%Z
  /\ trace_of (Legacy.on_signal "interrupt" r) p
     = [EvSignal; EvLog "Got signal: " [AStr "interrupt"]; EvKill]
  /\ trace_of (Main.on_signal r) p = [EvSignal; EvKill; EvWatcherClose].
Proof. vm_compute. repeat split. Qed.

(** ** Instances of the theorems with hypotheses *)

(** A clean build in a lazy process, with a child running before the
    cycle: no [Run]. *)
Lemma successful_cycle_runs_unless_lazy_witness :
  snd (Build Samples.stale_builder Samples.compiled) = None
  /\ immediate (vars Samples.lazy_process)
     = negb (flag_lazy Samples.lazy_flags)
  /\ count is_Run
       (trace_of (Main.rebuilder Samples.stale_builder Samples.running_child
                    Samples.compiled) Samples.lazy_process)
     = 0.
Proof.
  refine (conj eq_refl (conj eq_refl _)).
  exact (proj1 (proj2 (proj2
           (successful_cycle_runs_unless_lazy (R := SpecRunner) Samples.join
              Samples.lazy_flags Samples.stale_builder Samples.running_child
              Samples.compiled Samples.lazy_process eq_refl eq_refl)))).
Defined.

(** A compile error in an immediate process, followed by two more
    triggers whose builds fail: the child that was running is down. *)
Lemma failed_cycle_leaves_stopped_witness :
  snd (Build Samples.stale_builder Samples.syntax_error)
  = Some (Errorf "main.go:3: syntax error")
  /\ IsRunning (fst (Kill Samples.running_child)) = false.
Proof.
  refine (conj eq_refl _).
  refine (proj1 (proj2 (proj2 (proj2 (proj2
            (failed_cycle_leaves_stopped (R := SpecRunner)
               Samples.stale_builder Samples.running_child
               Samples.syntax_error Samples.immediate_process
               (Errorf "main.go:3: syntax error") ".sparkplug-bin"
               [HTTPEndpoint Samples.go_missing;
                FileChange Samples.source_written Samples.syntax_error]
               eq_refl _)))))).
  intros t res' [<-|[<-|[]]] [= <-] b'; discriminate.
Defined.

(** * Further properties of the code *)

(** ** The builder, call after call *)
Section BuilderCalls.

(** X1. [Build] keeps nothing of an earlier call but what the last run of
    the toolchain left: building twice is building once with the second
    answer, whatever the first one was, and the command line run is the
    same at every call. *)
Theorem Build_forgets_earlier_runs (b : builder) (r1 r2 : CmdResult) :
  Build (fst (Build b r1)) r2 = Build b r2
  /\ build_command (fst (Build b r1)) = build_command b
  /\ dir (fst (Build b r1)) = dir b.
Proof.
  unfold Build, build_command. simpl.
  destruct (0 <? String.length (if command_failed r1 then output r1 else ""))%nat;
    simpl; repeat split.
Qed.

(** X2. Naming is idempotent: the name [NewBuilder] settles on is a name
    it leaves alone, on every platform and for every requested name, the
    empty one included. *)
Theorem NewBuilder_name_is_stable (goos dir dir' bin : string) (g g' : bool) :
  Binary (NewBuilder goos dir' (Binary (NewBuilder goos dir bin g)) g')
  = Binary (NewBuilder goos dir bin g).
Proof.
  set (name := if (String.length bin =? 0)%nat then "bin" else bin).
  assert (name <> "") as Hname.
  { subst name. destruct (String.length bin =? 0)%nat eqn:Hlen.
    - discriminate.
    - intros ->. discriminate. }
  destruct (String.eqb goos "windows") eqn:Hos.
  - apply String.eqb_eq in Hos as ->. rewrite !NewBuilder_windows.
    cbv zeta. fold name.
    set (out := if HasSuffix name ".exe" then name else name ++ ".exe").
    assert (HasSuffix out ".exe" = true) as Hexe.
    { subst out. destruct (HasSuffix name ".exe") eqn:Hs; [assumption|].
      apply HasSuffix_append. }
    assert ((String.length out =? 0)%nat = false) as ->.
    { apply Nat.eqb_neq. intros Hz.
      apply (HasSuffix_nonempty out ".exe" Hexe); [discriminate|].
      now apply length_zero_iff, Nat.eqb_eq. }
    now rewrite Hexe.
  - rewrite !NewBuilder_other_os by assumption. fold name.
    assert ((String.length name =? 0)%nat = false) as ->; [|reflexivity].
    apply Nat.eqb_neq. intros Hz. apply Hname.
    now apply length_zero_iff, Nat.eqb_eq.
Qed.

End BuilderCalls.

(** ** The watcher goroutines *)
Section WatcherLoop.

Context {R : Type} `{Runner R}.
Local Open Scope list_scope.

(** The four tests on the bits of [Op] amount to one. *)
Lemma op_bits (op : N) :
  ((N.land op fsnotify.Write =? fsnotify.Write)%N
   || (N.land op fsnotify.Rename =? fsnotify.Rename)%N
   || (N.land op fsnotify.Create =? fsnotify.Create)%N
   || (N.land op fsnotify.Remove =? fsnotify.Remove)%N)
  = negb (N.land op 15 =? 0)%N.
Proof.
  destruct op as [|p]; [reflexivity|].
  destruct p as [[[[p|p|]|[p|p|]|]|[[p|p|]|[p|p|]|]|]
                |[[[p|p|]|[p|p|]|]|[[p|p|]|[p|p|]|]|]|]; reflexivity.
Qed.

(** X3. The watcher calls [rebuilder] for an event exactly when the name
    ends neither in the binary name nor in its umask variant and [Op] has
    one of Create, Write, Remove, Rename set.  So a Chmod alone never
    triggers, and with an empty binary name nothing ever does: every name
    ends in the empty string. *)
Theorem triggers_rebuild_spec (binary : string) (ev : fsnotify.Event) :
  Main.triggers_rebuild binary ev
  = negb (HasSuffix (fsnotify.Name ev) binary)
    && negb (HasSuffix (fsnotify.Name ev) (binary ++ "-go-tmp-umask"))
    && negb (N.land (fsnotify.Op ev) 15 =? 0)%N
  /\ Main.triggers_rebuild binary
       {| fsnotify.Name := fsnotify.Name ev; fsnotify.Op := fsnotify.Chmod |}
     = false
  /\ Main.triggers_rebuild "" ev = false.
Proof.
  unfold Main.triggers_rebuild. rewrite op_bits. split; [reflexivity|].
  split.
  - simpl. apply andb_false_r.
  - assert (HasSuffix (fsnotify.Name ev) "" = true) as ->; [|reflexivity].
    apply HasSuffix_true. exists (fsnotify.Name ev).
    now rewrite append_empty_r.
Qed.

(** X4. Notifications about the binary or its umask variant are dropped
    without a trace: a run of such events, however long and whatever their
    [Op], leaves the builder, the runner and the process as they were. *)
Theorem binary_events_are_dropped (binary : string)
    (evs : list fsnotify.Event) (res : CmdResult) (b : builder) (r : R)
    (p : process) :
  (forall ev, In ev evs ->
     HasSuffix (fsnotify.Name ev) binary = true
     \/ HasSuffix (fsnotify.Name ev) (binary ++ "-go-tmp-umask") = true) ->
  Main.serve binary (map (fun ev => FileChange ev res) evs) b r p
  = Ret (b, r) p.
Proof.
  induction evs as [|ev evs IH]; intros Hall; [reflexivity|].
  assert (Main.triggers_rebuild binary ev = false) as Htr.
  { unfold Main.triggers_rebuild.
    destruct (Hall ev (or_introl eq_refl)) as [-> | ->];
      [reflexivity | now rewrite andb_false_r]. }
  simpl. unfold bind. rewrite Htr. simpl.
  apply IH. intros ev' Hin. apply Hall. now right.
Qed.

(** No trigger before the first error of the watcher ends the process. *)
Lemma serve_changes_return (binary : string) (ts : list trigger) :
  forallb is_change ts = true ->
  forall (b : builder) (r : R) (p : process),
    exists b' r' p', Main.serve binary ts b r p = Ret (b', r') p'.
Proof.
  induction ts as [|t ts IH]; intros Hts b r p; [simpl; eauto|].
  simpl in Hts. apply andb_true_iff in Hts as [Ht Hts].
  simpl. unfold bind.
  destruct t as [ev res|e|res]; [|discriminate|]; simpl.
  - destruct (Main.triggers_rebuild binary ev).
    + rewrite rebuilder_eq. now apply IH.
    + simpl. now apply IH.
  - unfold Main.proxy_restart. rewrite rebuilder_eq. now apply IH.
Qed.

(** X5. An error on the watcher's [Errors] channel is fatal: the triggers
    before it are served, the error is logged, and the process exits with
    status 1; whatever arrives afterwards is never served, and neither
    [Kill] nor the closing of the watcher happens on the way out. *)
Theorem watcher_error_is_fatal (binary : string) (ts ts' : list trigger)
    (e : error) (b : builder) (r : R) (p : process) :
  forallb is_change ts = true ->
  exists b1 r1 p1,
    Main.serve binary ts b r p = Ret (b1, r1) p1
    /\ Main.serve binary (ts ++ WatchError e :: ts') b r p
       = Exit 1 (logged
                   [EvLog "ERROR! Problem observed while watching filesystem: %v."
                          [AErr e]] p1).
Proof.
  revert b r p. induction ts as [|t ts IH]; intros b r p Hts.
  - exists b, r, p. split; reflexivity.
  - simpl in Hts. apply andb_true_iff in Hts as [Ht Hts].
    destruct (serve_changes_return binary [t]
                ltac:(simpl; now rewrite Ht) b r p) as (b0 & r0 & p0 & H0).
    simpl in H0. unfold bind in H0.
    destruct (Main.handle binary t b r p) as [[b0' r0'] p0'|s p0'] eqn:Hh;
      [|discriminate].
    destruct (IH b0' r0' p0' Hts) as (b1 & r1 & p1 & Hs & Hf).
    exists b1, r1, p1. simpl. unfold bind. rewrite Hh. now split.
Qed.

End WatcherLoop.

(** ** What the terminal shows, and what a cycle ignores *)
Section CycleOutput.

Context {R : Type} `{Runner R}.
Local Open Scope list_scope.

(** When [Build] returns an error the stored text is the captured output,
    empty or not. *)
Lemma Build_error_text (b : builder) (res : CmdResult) :
  snd (Build b res) <> None -> Errors (fst (Build b res)) = output res.
Proof.
  rewrite Build_returns, Build_errors. unfold command_failed.
  destruct (err res) as [e|], (success res); simpl;
    destruct (output res); simpl; congruence.
Qed.

(** X7. A build speaks only when it has to.  When [Build] fails the
    terminal shows the failure line followed by exactly the captured
    output of the toolchain; a success is announced only if the previous
    build had failed; a success after a success prints nothing. *)
Theorem build_messages (b : builder) (r : R) (res : CmdResult)
    (p : process) :
  messages (trace_of (Main.build b r res) p)
  = match snd (Build b res), buildError (vars p) with
    | Some _, _ => [EvLog "ERROR! Build failed." []; EvPrintln (output res)]
    | None, Some _ => [EvLog "Build Successful" []]
    | None, None => []
    end.
Proof.
  rewrite build_trace. unfold build_log, messages.
  pose proof (Build_error_text b res) as Htext.
  destruct (snd (Build b res)) as [e|].
  - simpl. rewrite Htext by discriminate. reflexivity.
  - destruct (buildError (vars p)), (immediate (vars p)); reflexivity.
Qed.

(** X8. Inside a cycle the answers of the runner are thrown away: whether
    [Kill] and [Run] succeed or fail, the cycle returns, builds the same
    builder, and leaves the same process behind, log and [buildError]
    included. *)
Theorem cycle_ignores_runner_errors (b : builder) (r r' : R)
    (res : CmdResult) (p : process) :
  exists (b1 : builder) (r1 r1' : R) (p1 : process),
    Main.rebuilder b r res p = Ret (b1, r1) p1
    /\ Main.rebuilder b r' res p = Ret (b1, r1') p1
    /\ buildError (vars p1) = snd (Build b res).
Proof.
  exists (fst (Build b res)),
    (runner_after_build b res (vars p) (fst (Kill r))),
    (runner_after_build b res (vars p) (fst (Kill r'))),
    (after_build b res (cycle_log b res (vars p)) p).
  rewrite !rebuilder_eq. repeat split.
Qed.

(** X9. The two entry points rebuild alike: the closure the older one
    hands to the proxy returns the same builder and runner and leaves the
    same variables and environment as [rebuilder]; the newer one only
    prints the three-line restart banner in front. *)
Theorem Legacy_restart_is_rebuilder (b : builder) (r : R) (res : CmdResult)
    (p : process) :
  exists (v : builder * R) (p1 p2 : process),
    Legacy.restart b r res p = Ret v p1
    /\ Main.rebuilder b r res p = Ret v p2
    /\ vars p1 = vars p2
    /\ environ p1 = environ p2
    /\ trace_of (Main.rebuilder b r res) p
       = [EvPrintln ""; EvLog "Restarting web server..." []; EvPrintln ""]
         ++ trace_of (Legacy.restart b r res) p.
Proof.
  assert (Legacy.restart b r res p
          = Ret (fst (Build b res),
                 runner_after_build b res (vars p) (fst (Kill r)))
                (after_build b res (EvKill :: build_log b res (vars p)) p))
    as Hlegacy.
  { unfold Legacy.restart, Legacy.build, Main.runner_Kill, bind at 1 2.
    unfold emit, ret. simpl. destruct (Kill r) as [r0 e0]. simpl.
    rewrite build_eq. unfold after_build. simpl.
    now rewrite <- !app_assoc. }
  eexists _, _, _. split; [exact Hlegacy|].
  split; [apply rebuilder_eq|]. repeat split.
  rewrite rebuilder_trace.
  rewrite (trace_of_extends (Legacy.restart b r res) p
             (EvKill :: build_log b res (vars p)))
    by now rewrite Hlegacy.
  reflexivity.
Qed.

End CycleOutput.

(** ** How a run can end *)
Section RunInvariants.

Local Open Scope list_scope.

Lemma final_bind_Ret {A B} (m : M A) (k : A -> M B) (p p' : process)
    (a : A) :
  m p = Ret a p' -> final (bind m k p) = final (k a p').
Proof. intros Hm. now rewrite (bind_Ret m k p p' a Hm). Qed.

Lemma fatal_only_ret {A} (a : A) : fatal_only (ret a).
Proof. intros p. exact I. Qed.

Lemma fatal_only_emit (e : event) : fatal_only (emit e).
Proof. intros p. exact I. Qed.

Lemma fatal_only_bind {A B} (m : M A) (k : A -> M B) :
  fatal_only m -> (forall a, fatal_only (k a)) -> fatal_only (bind m k).
Proof.
  intros Hm Hk p. specialize (Hm p). unfold bind.
  destruct (m p) as [a p'|s p']; [apply Hk | assumption].
Qed.

Lemma fatal_only_logger_Fatal {A} (f : string) (l : list arg) :
  fatal_only (@logger_Fatal A f l).
Proof. intros p. reflexivity. Qed.

Lemma shuts_down_logger_Fatal {A} (f : string) (l : list arg) :
  shuts_down (@logger_Fatal A f l).
Proof. intros p. simpl. now left. Qed.

Lemma shuts_down_bind {A B} (m : M A) (k : A -> M B) :
  fatal_only m -> (forall a, shuts_down (k a)) -> shuts_down (bind m k).
Proof.
  intros Hm Hk p. specialize (Hm p). unfold bind.
  destruct (m p) as [a p'|s p']; [apply Hk | now left].
Qed.

End RunInvariants.

Create HintDb fatal.
#[export] Hint Resolve fatal_only_ret fatal_only_emit fatal_only_logger_Fatal
  shuts_down_logger_Fatal : fatal.
#[export] Hint Extern 1 (fatal_only (logger_Print _ _)) =>
  (unfold logger_Print; apply fatal_only_emit) : fatal.
#[export] Hint Extern 1 (fatal_only (fmt_Println _)) =>
  (unfold fmt_Println; apply fatal_only_emit) : fatal.
#[export] Hint Extern 2 (fatal_only (bind _ _)) =>
  (apply fatal_only_bind; [|intros]) : fatal.
#[export] Hint Extern 2 (shuts_down (bind _ _)) =>
  (apply shuts_down_bind; [|intros]) : fatal.
#[export] Hint Extern 3 (fatal_only (match ?x with _ => _ end)) =>
  destruct x : fatal.
#[export] Hint Extern 3 (shuts_down (match ?x with _ => _ end)) =>
  destruct x : fatal.

(** ** A whole run of the watcher-based entry point *)
Section WholeRun.

Context {R : Type} `{Runner R}.
Variable filepath_Join : string -> string -> string.
Local Open Scope list_scope.

Lemma fatal_only_build (b : builder) (r : R) (res : CmdResult) :
  fatal_only (Main.build b r res).
Proof. intros p. now rewrite build_eq. Qed.

Lemma fatal_only_rebuilder (b : builder) (r : R) (res : CmdResult) :
  fatal_only (Main.rebuilder b r res).
Proof. intros p. now rewrite rebuilder_eq. Qed.

Lemma fatal_only_serve (binary : string) (ts : list trigger) (b : builder)
    (r : R) :
  fatal_only (Main.serve binary ts b r).
Proof.
  revert b r. induction ts as [|t ts IH]; intros b r; simpl.
  - apply fatal_only_ret.
  - apply fatal_only_bind; [|intros [b' r']; apply IH].
    pose proof fatal_only_rebuilder.
    destruct t; simpl; unfold Main.proxy_restart;
      [destruct (Main.triggers_rebuild _ _)| |]; auto with fatal.
Qed.

Lemma shuts_down_on_signal (r : R) : shuts_down (Main.on_signal r).
Proof.
  intros p. rewrite on_signal_eq. destruct (snd (Kill r)); [now left|].
  right. split; [reflexivity|]. now exists (out p).
Qed.

Lemma shuts_down_blockUntilExit (binary : string) (ts : list trigger)
    (b : builder) (r : R) :
  shuts_down (Main.blockUntilExit binary ts b r).
Proof.
  unfold Main.blockUntilExit.
  pose proof fatal_only_serve. pose proof shuts_down_on_signal.
  auto 20 with fatal.
Qed.

Lemma fatal_only_createWatcher (w : World) (path : string) :
  fatal_only (Main.createWatcher w path).
Proof. unfold Main.createWatcher. auto 30 with fatal. Qed.


End WholeRun.

(** ** Startup, step by step *)
Section StartupSteps.

Context {R : Type} `{Runner R}.
Variable filepath_Join : string -> string -> string.
Local Open Scope list_scope.

(** X12. If the working directory cannot be resolved, both entry points
    log the error and exit with status 1 before the proxy is started or
    anything is built; [PORT] and the startup mode have been set by
    then. *)
Theorem no_working_directory_is_fatal (c : Flags) (w : World)
    (env : gmap string string) (e : error) :
  os_Getwd w = inr e ->
  let q := {| vars := {| immediate := negb (flag_lazy c);
                         buildError := None |};
              environ := <["PORT" := Itoa (flag_appPort c)]> env;
              out := [EvSetenv "PORT" (Itoa (flag_appPort c));
                      EvLog "%v" [AErr e]] |} in
  Main.mainAction filepath_Join c w (fresh env) = Exit 1 q
  /\ Legacy.mainAction filepath_Join c w (fresh env) = Exit 1 q.
Proof.
  intros Hwd. cbv zeta.
  unfold Main.mainAction, Legacy.mainAction. cbv zeta. rewrite Hwd.
  split; reflexivity.
Qed.

(** X13. If the proxy cannot be started, both entry points log the error
    and exit with status 1 without having built anything or touched the
    runner. *)
Theorem proxy_failure_is_fatal (c : Flags) (w : World)
    (env : gmap string string) (wd : string) (e : error) :
  os_Getwd w = inl wd ->
  proxy_Run w = Some e ->
  let o := Main.mainAction filepath_Join c w (fresh env) in
  let o' := Legacy.mainAction filepath_Join c w (fresh env) in
  exit_status o = Some 1%Z
  /\ out (final o)
     = [EvSetenv "PORT" (Itoa (flag_appPort c));
        EvProxyRun (config_of c);
        EvLog "ERROR! Failed to start the proxy on port %d: %v."
              [AInt (flag_port c); AErr e]]
  /\ exit_status o' = Some 1%Z
  /\ out (final o')
     = [EvSetenv "PORT" (Itoa (flag_appPort c));
        EvProxyRun (config_of c);
        EvLog "%v" [AErr e]].
Proof.
  intros Hwd Hproxy. cbv zeta.
  unfold Main.mainAction, Legacy.mainAction. cbv zeta.
  rewrite Hwd, Hproxy. repeat split.
Qed.

(** The run up to the end of the first build, when the working directory
    resolves and the proxy starts. *)
Lemma mainAction_first_build (c : Flags) (w : World)
    (env : gmap string string) (wd : string) :
  os_Getwd w = inl wd ->
  proxy_Run w = None ->
  exists (b : builder) (r : R) (p : process),
    out p = startup_log c w
    /\ Main.mainAction filepath_Join c w (fresh env)
       = (Main.createWatcher w (flag_path c) >>
          Main.blockUntilExit (flag_bin c) (lifetime w) b r) p.
Proof.
  intros Hwd Hproxy. unfold Main.mainAction. cbv zeta.
  rewrite Hwd, Hproxy.
  do 6 (erewrite bind_Ret by reflexivity).
  erewrite bind_Ret by apply build_eq.
  eexists _, _, _. split; [|reflexivity]. reflexivity.
Qed.

(** X14. If the watcher cannot be set up, the program logs the error and
    exits with status 1 right after the first build: [Kill] is never
    called, so a child that the first build has started is left
    running. *)
Theorem watcher_failure_leaves_child (c : Flags) (w : World)
    (env : gmap string string) (wd : string) (e : error) :
  os_Getwd w = inl wd ->
  proxy_Run w = None ->
  watcher_error w = Some e ->
  let o := Main.mainAction filepath_Join c w (fresh env) in
  exit_status o = Some 1%Z
  /\ (exists f, out (final o) = startup_log c w ++ [EvLog f [AErr e]])
  /\ count is_Kill (out (final o)) = 0
  /\ count is_Run (out (final o))
     = match snd (Build (NewBuilder (goos w) (flag_path c) (flag_bin c)
                           (flag_godep c)) (first_build w)) with
       | Some _ => 0
       | None => if flag_lazy c then 0 else 1
       end.
Proof.
  intros Hwd Hproxy Hwatch. cbv zeta.
  destruct (mainAction_first_build c w env wd Hwd Hproxy)
    as (b & r & p & Hout & ->).
  assert (exists f,
    (Main.createWatcher w (flag_path c) >>
     Main.blockUntilExit (flag_bin c) (lifetime w) b r) p
    = Exit 1 (logged [EvLog f [AErr e]] p)) as [f ->].
  { unfold watcher_error in Hwatch. unfold Main.createWatcher, bind.
    destruct (filepath_Abs w) as [a|e0]; simpl.
    - destruct (fsnotify_NewWatcher w) as [e1|]; simpl.
      + injection Hwatch as ->. eauto.
      + rewrite Hwatch. simpl. eauto.
    - injection Hwatch as ->. eauto. }
  simpl. rewrite Hout. split; [reflexivity|]. split; [eauto|].
  unfold startup_log. rewrite !count_app, count_build_log_Run.
  unfold build_log, count. simpl.
  destruct (snd (Build _ (first_build w))), (flag_lazy c); simpl;
    split; reflexivity.
Qed.

(** X15. When every call of the startup succeeds, they come in this order:
    [PORT] is set, the proxy is started and announced, the first build
    runs to its end, and only then is the source directory added to the
    watcher and the signal handler registered; what the first build writes
    is therefore never notified. *)
Theorem startup_sequence (c : Flags) (w : World) (env : gmap string string)
    (wd abs : string) :
  os_Getwd w = inl wd ->
  proxy_Run w = None ->
  filepath_Abs w = inl abs ->
  watcher_error w = None ->
  exists rest,
    out (final (Main.mainAction filepath_Join c w (fresh env)))
    = startup_log c w ++ [EvWatch abs; EvSignalNotify] ++ rest.
Proof.
  intros Hwd Hproxy Habs Hwatch.
  destruct (mainAction_first_build c w env wd Hwd Hproxy)
    as (b & r & p & Hout & ->).
  unfold watcher_error in Hwatch. rewrite Habs in Hwatch.
  unfold Main.createWatcher, Main.blockUntilExit.
  rewrite Habs.
  destruct (fsnotify_NewWatcher w) as [e1|]; [discriminate|].
  rewrite Hwatch.
  do 2 (erewrite final_bind_Ret by reflexivity).
  match goal with
  | |- context [final (?m ?q)] =>
      assert (quiet m) as Hq;
      [ pose proof (quiet_serve (R := R)); pose proof (quiet_on_signal (R := R));
        auto 30 with quiet
      | destruct (Hq q) as (_ & _ & rest & Ht & _) ]
  end.
  exists rest. rewrite Ht. cbn [out vars environ]. rewrite Hout.
  now rewrite <- !app_assoc.
Qed.

End StartupSteps.

(** ** The signal *)
Section SignalFacts.

Context {R : Type} `{Runner R}.
Local Open Scope list_scope.

(** X16. If no error of the watcher arrives before the signal, the exit
    status is decided by the last [Kill] alone, called on the runner the
    last cycle left: status 0 with the watcher closed when it succeeds,
    status 1 with the error logged and the watcher left open when it
    fails. *)
Theorem exit_status_is_the_last_Kill (binary : string) (ts : list trigger)
    (b : builder) (r : R) (p : process) :
  forallb is_change ts = true ->
  exists (b1 : builder) (r1 : R) (p1 : process),
    Main.serve binary ts b r (logged [EvSignalNotify] p) = Ret (b1, r1) p1
    /\ Main.blockUntilExit binary ts b r p
       = match snd (Kill r1) with
         | None => Exit 0 (logged [EvSignal; EvKill; EvWatcherClose] p1)
         | Some e =>
             Exit 1 (logged [EvSignal; EvKill;
                             EvLog "ERROR! Could not kill server: %v."
                                   [AErr e]] p1)
         end.
Proof.
  intros Hts.
  destruct (serve_changes_return binary ts Hts b r (logged [EvSignalNotify] p))
    as (b1 & r1 & p1 & Hs).
  exists b1, r1, p1. split; [exact Hs|].
  unfold Main.blockUntilExit.
  erewrite bind_Ret by reflexivity.
  erewrite bind_Ret by exact Hs.
  apply on_signal_eq.
Qed.

End SignalFacts.

(** ** Bursts of triggers *)
Section Bursts.

Context {R : Type} `{Runner R}.
Local Open Scope list_scope.

Lemma count_cycle_log (b : builder) (res : CmdResult) (g : globals) :
  count is_BuildCall (cycle_log b res g) = 1
  /\ count is_Kill (cycle_log b res g) = 1.
Proof.
  unfold cycle_log, build_log.
  destruct (snd (Build b res)), (buildError g), (immediate g);
    split; reflexivity.
Qed.

(** X6. Triggers are never coalesced.  As long as the watcher reports no
    error, every notification that passes the filter and every hit on the
    restart path gets a cycle of its own, with its own [Kill] and its own
    [Build]: a burst of n such triggers costs n builds. *)
Theorem one_cycle_per_trigger (binary : string) (ts : list trigger)
    (b : builder) (r : R) (p : process) :
  forallb is_change ts = true ->
  let t := trace_of (Main.serve binary ts b r) p in
  count is_BuildCall t = length (List.filter (starts_cycle binary) ts)
  /\ count is_Kill t = length (List.filter (starts_cycle binary) ts).
Proof.
  intros Hts. cbv zeta.
  assert (forall f, (forall b res g, count f (cycle_log b res g) = 1) ->
    forall ts b r p, forallb is_change ts = true ->
      count f (out (final (Main.serve binary ts b r p)))
      = count f (out p) + length (List.filter (starts_cycle binary) ts))
    as Hgen.
  { clear. intros f Hf ts.
    induction ts as [|t ts IH]; intros b r p Hts; [simpl; lia|].
    simpl in Hts. apply andb_true_iff in Hts as [Ht Hts].
    simpl. unfold bind.
    destruct t as [ev res|e|res]; [|discriminate|]; simpl;
      unfold Main.proxy_restart.
    - destruct (Main.triggers_rebuild binary ev).
      + rewrite rebuilder_eq, IH by assumption. simpl.
        rewrite count_app, Hf. lia.
      + simpl. now rewrite IH.
    - rewrite rebuilder_eq, IH by assumption. simpl.
      rewrite count_app, Hf. lia. }
  pose proof (quiet_trace _ p (quiet_serve binary ts b r)) as Hq.
  split.
  - pose proof (Hgen is_BuildCall
                  (fun b res g => proj1 (count_cycle_log b res g))
                  ts b r p Hts) as Hc.
    rewrite Hq, count_app in Hc. lia.
  - pose proof (Hgen is_Kill
                  (fun b res g => proj2 (count_cycle_log b res g))
                  ts b r p Hts) as Hc.
    rewrite Hq, count_app in Hc. lia.
Qed.

End Bursts.

(** ** Instances of the further theorems with hypotheses *)

(** Three writes to a source file in a row: three builds. *)
Lemma one_cycle_per_trigger_witness :
  count is_BuildCall
    (trace_of (Main.serve ".sparkplug-bin"
                 [FileChange Samples.source_written Samples.syntax_error;
                  FileChange Samples.source_written Samples.syntax_error;
                  FileChange Samples.source_written Samples.compiled]
                 Samples.stale_builder Samples.running_child)
       Samples.immediate_process)
  = 3.
Proof.
  exact (proj1 (one_cycle_per_trigger (R := SpecRunner) ".sparkplug-bin"
                  [FileChange Samples.source_written Samples.syntax_error;
                   FileChange Samples.source_written Samples.syntax_error;
                   FileChange Samples.source_written Samples.compiled]
                  Samples.stale_builder Samples.running_child
                  Samples.immediate_process eq_refl)).
Defined.

(** The binary and its umask file are created during a build: nothing
    happens. *)
Lemma binary_events_are_dropped_witness :
  Main.serve ".sparkplug-bin"
    (map (fun ev => FileChange ev Samples.compiled) Samples.binary_events)
    Samples.stale_builder Samples.running_child Samples.immediate_process
  = Ret (Samples.stale_builder, Samples.running_child)
        Samples.immediate_process.
Proof.
  apply (binary_events_are_dropped (R := SpecRunner)).
  intros ev [<-|[<-|[]]]; [left | right]; reflexivity.
Defined.

(** A write to a source file, then an error of the watcher, then a hit on
    the restart path that is never served. *)
Lemma watcher_error_is_fatal_witness :
  exit_status
    (Main.serve ".sparkplug-bin"
       ([FileChange Samples.source_written Samples.compiled]
        ++ WatchError (ExecError "too many open files")
           :: [HTTPEndpoint Samples.compiled])
       Samples.stale_builder Samples.running_child Samples.immediate_process)
  = Some 1%Z.
Proof.
  destruct (watcher_error_is_fatal (R := SpecRunner) ".sparkplug-bin"
              [FileChange Samples.source_written Samples.compiled]
              [HTTPEndpoint Samples.compiled]
              (ExecError "too many open files")
              Samples.stale_builder Samples.running_child
              Samples.immediate_process eq_refl)
    as (b1 & r1 & p1 & _ & ->).
  reflexivity.
Defined.

Lemma no_working_directory_is_fatal_witness :
  exit_status (Main.mainAction (R := SpecRunner) Samples.join
                 Samples.default_flags Samples.no_cwd_world (fresh ∅))
  = Some 1%Z.
Proof.
  rewrite (proj1 (no_working_directory_is_fatal (R := SpecRunner)
                    Samples.join Samples.default_flags Samples.no_cwd_world
                    ∅ (ExecError "getwd: no such file or directory")
                    eq_refl)).
  reflexivity.
Defined.

Lemma proxy_failure_is_fatal_witness :
  exit_status (Main.mainAction (R := SpecRunner) Samples.join
                 Samples.default_flags Samples.port_taken_world (fresh ∅))
  = Some 1%Z.
Proof.
  exact (proj1 (proxy_failure_is_fatal (R := SpecRunner) Samples.join
                  Samples.default_flags Samples.port_taken_world ∅
                  "/home/dev/app"
                  (ExecError "listen tcp :3000: address already in use")
                  eq_refl eq_refl)).
Defined.

(** The first build has started the child, the directory cannot be
    watched: exit without a [Kill]. *)
Lemma watcher_failure_leaves_child_witness :
  count is_Kill
    (out (final (Main.mainAction (R := SpecRunner) Samples.join
                   Samples.default_flags Samples.no_watch_world (fresh ∅))))
  = 0.
Proof.
  exact (proj1 (proj2 (proj2
           (watcher_failure_leaves_child (R := SpecRunner) Samples.join
              Samples.default_flags Samples.no_watch_world ∅
              "/home/dev/app" (ExecError "no such file or directory")
              eq_refl eq_refl eq_refl)))).
Defined.

Lemma startup_sequence_witness :
  exists rest,
    out (final (Main.mainAction (R := SpecRunner) Samples.join
                  Samples.default_flags Samples.calm_world (fresh ∅)))
    = (startup_log Samples.default_flags Samples.calm_world
       ++ [EvWatch "/home/dev/app"; EvSignalNotify] ++ rest)%list.
Proof.
  exact (startup_sequence (R := SpecRunner) Samples.join
           Samples.default_flags Samples.calm_world ∅
           "/home/dev/app" "/home/dev/app" eq_refl eq_refl eq_refl eq_refl).
Defined.

(** A failed rebuild, then the signal, with a child that will not stop
    gracefully: status 1. *)
Lemma exit_status_is_the_last_Kill_witness :
  exists s,
    exit_status
      (Main.blockUntilExit ".sparkplug-bin"
         [HTTPEndpoint Samples.compiled]
         Samples.stale_builder Samples.stubborn_child
         Samples.immediate_process)
    = Some s.
Proof.
  destruct (exit_status_is_the_last_Kill (R := SpecRunner) ".sparkplug-bin"
              [HTTPEndpoint Samples.compiled]
              Samples.stale_builder Samples.stubborn_child
              Samples.immediate_process eq_refl)
    as (b1 & r1 & p1 & _ & ->).
  destruct (snd (Kill r1)); simpl; eauto.
Defined.
